(** * formation_control: the agent core (src/agent_core.cpp)

    A shallow embedding of [AgentCore], the per-cycle pipeline of one agent
    (consensus, control, guidance, dynamics) together with its two topic
    callbacks and the statistics codec.

    Conventions of the embedding.
    - [double] is read as a real number ([R]): the idealised arithmetic the
      control design is stated in.  [std::sqrt], [std::cos], [std::sin],
      [std::tan], [std::min], [std::max] are the functions of the same name
      of the real-number library; [std::pow(a, 2)] is [a ^ 2].
    - Eigen containers check every index and every size with [eigen_assert];
      [std::vector::at] and [std::stoi] throw.  None of these is caught in
      the node, so each of them ends the callback: a member function is a
      state transformer that either returns or raises a [Failure].
    - A quotient is the quotient of real numbers: a statement about one
      carries the hypothesis that its divisor is not zero, a case in which
      the floating-point division of the code leaves the real numbers.
    - Members keep the names of the class, trailing underscore included. *)

From Stdlib Require Import Reals Lra Lia ZArith List String Ascii Bool.
From Stdlib Require Import DecimalString.
From Stdlib Require DecimalPos.
Import ListNotations.

Open Scope R_scope.

(** ** Outcomes *)

Inductive Failure : Set :=
| std_out_of_range      (* std::vector::at past the end, std::stoi overflow *)
| std_invalid_argument  (* std::stoi without a digit to convert *)
| eigen_assert.         (* an Eigen index or size assertion *)

Inductive Result (A : Type) : Type :=
| Ok (a : A)
| Raise (f : Failure).
Arguments Ok {A} a.
Arguments Raise {A} f.

Definition rbind {A B} (r : Result A) (k : A -> Result B) : Result B :=
  match r with
  | Ok a => k a
  | Raise f => Raise f
  end.

Declare Scope result_scope.
Delimit Scope result_scope with result.
Notation "x <- r ;; k" := (rbind r (fun x => k))
  (at level 61, r at next level, right associativity) : result_scope.

Definition completes {A} (r : Result A) : bool :=
  match r with Ok _ => true | Raise _ => false end.

(** ** Dense Eigen objects

    A vector is the list of its coefficients.  A matrix carries its two
    dimensions and its coefficients, read only inside the dimensions. *)

Module Eigen.

Definition VectorXd := list R.

Record MatrixXd : Type := mkMatrix {
  rows : nat;
  cols : nat;
  coeffs : nat -> nat -> R
}.

Definition size (v : VectorXd) : nat := List.length v.

Definition Zero (n : nat) : VectorXd := repeat 0 n.
Definition Ones (n : nat) : VectorXd := repeat 1 n.

(** [v(i)]: asserts [0 <= i < size]. *)
Definition coeff (v : VectorXd) (i : nat) : Result R :=
  match nth_error v i with
  | Some c => Ok c
  | None => Raise eigen_assert
  end.

(** Whether [(i, j)] addresses a coefficient of [m]. *)
Definition in_range (m : MatrixXd) (i j : nat) : bool :=
  (i <? rows m)%nat && (j <? cols m)%nat.

(** [m(i, j) = c]: asserts [i < rows] and [j < cols]. *)
Definition mcoeff_set (m : MatrixXd) (i j : nat) (c : R) : Result MatrixXd :=
  if in_range m i j
  then Ok (mkMatrix (rows m) (cols m)
             (fun i' j' => if (i' =? i)%nat && (j' =? j)%nat then c
                           else coeffs m i' j'))
  else Raise eigen_assert.

(** [v << c0, c1, c2, c3, c4]: the comma initialiser asserts that the
    five coefficients fill the vector exactly. *)
Definition comma5 (n : nat) (c0 c1 c2 c3 c4 : R) : Result VectorXd :=
  if (n =? 5)%nat then Ok [c0; c1; c2; c3; c4] else Raise eigen_assert.

(** Coefficient-wise operations assert equal sizes. *)
Fixpoint zip_with (f : R -> R -> R) (u v : VectorXd) : VectorXd :=
  match u, v with
  | a :: u', b :: v' => f a b :: zip_with f u' v'
  | _, _ => []
  end.

Definition vadd (u v : VectorXd) : Result VectorXd :=
  if (size u =? size v)%nat then Ok (zip_with Rplus u v)
  else Raise eigen_assert.

Definition vsub (u v : VectorXd) : Result VectorXd :=
  if (size u =? size v)%nat then Ok (zip_with Rminus u v)
  else Raise eigen_assert.

Definition vscale (v : VectorXd) (k : R) : VectorXd :=
  map (fun c => c * k) v.

(** Sum of [f 0 .. f (n-1)]. *)
Fixpoint sum_upto (n : nat) (f : nat -> R) : R :=
  match n with
  | O => 0
  | S k => sum_upto k f + f k
  end.

Definition Identity (r c : nat) : MatrixXd :=
  mkMatrix r c (fun i j => if (i =? j)%nat then 1 else 0).

Definition asDiagonal (v : VectorXd) : MatrixXd :=
  mkMatrix (size v) (size v)
    (fun i j => if (i =? j)%nat then nth i v 0 else 0).

Definition transpose (m : MatrixXd) : MatrixXd :=
  mkMatrix (cols m) (rows m) (fun i j => coeffs m j i).

Definition madd (a b : MatrixXd) : Result MatrixXd :=
  if (rows a =? rows b)%nat && (cols a =? cols b)%nat
  then Ok (mkMatrix (rows a) (cols a)
             (fun i j => coeffs a i j + coeffs b i j))
  else Raise eigen_assert.

Definition mmul (a b : MatrixXd) : Result MatrixXd :=
  if (cols a =? rows b)%nat
  then Ok (mkMatrix (rows a) (cols b)
             (fun i j => sum_upto (cols a)
                           (fun k => coeffs a i k * coeffs b k j)))
  else Raise eigen_assert.

(** Matrix times column vector. *)
Definition mvmul (a : MatrixXd) (v : VectorXd) : Result VectorXd :=
  if (cols a =? size v)%nat
  then Ok (map (fun i => sum_upto (cols a)
                           (fun k => coeffs a i k * nth k v 0))
               (seq 0 (rows a)))
  else Raise eigen_assert.

(** [m.row(i) = v]: asserts the row index and the size of [v]. *)
Definition row_set (m : MatrixXd) (i : nat) (v : VectorXd) : Result MatrixXd :=
  if (i <? rows m)%nat && (size v =? cols m)%nat
  then Ok (mkMatrix (rows m) (cols m)
             (fun i' j => if (i' =? i)%nat then nth j v 0
                          else coeffs m i' j))
  else Raise eigen_assert.

(** [m.rowwise() - x]: asserts that [x] has one coefficient per column. *)
Definition rowwise_sub (m : MatrixXd) (x : VectorXd) : Result MatrixXd :=
  if (size x =? cols m)%nat
  then Ok (mkMatrix (rows m) (cols m)
             (fun i j => coeffs m i j - nth j x 0))
  else Raise eigen_assert.

(** [m.colwise().sum()]: the row vector of the column sums. *)
Definition colwise_sum (m : MatrixXd) : VectorXd :=
  map (fun j => sum_upto (rows m) (fun i => coeffs m i j))
      (seq 0 (cols m)).

(** [m.inverse()], by cofactors: the inverse matrix in exact arithmetic
    whenever the determinant is not zero. Asserts a square matrix. *)
Definition skip (k i : nat) : nat := if (i <? k)%nat then i else S i.

Definition minor (c : nat -> nat -> R) (i j : nat) : nat -> nat -> R :=
  fun i' j' => c (skip i i') (skip j j').

Fixpoint det (n : nat) (c : nat -> nat -> R) : R :=
  match n with
  | O => 1
  | S k => sum_upto (S k)
             (fun j => (-1) ^ j * c O j * det k (minor c O j))
  end.

Definition inverse (m : MatrixXd) : Result MatrixXd :=
  if (rows m =? cols m)%nat
  then Ok (mkMatrix (rows m) (cols m)
             (fun i j => (-1) ^ (i + j)
                         * det (pred (rows m)) (minor (coeffs m) j i)
                         / det (rows m) (coeffs m)))
  else Raise eigen_assert.

End Eigen.

(** ** Messages

    The generated message classes, with the fields the agent reads or
    writes.  A default-constructed message has every number at zero. *)

Module agent_test.

Record FormationStatistics : Type := mkStats {
  m_x : R; m_y : R; m_xx : R; m_xy : R; m_yy : R
}.

Definition FormationStatistics_default : FormationStatistics :=
  mkStats 0 0 0 0 0.

Record Header : Type := mkHeader { frame_id : string }.

Record FormationStatisticsStamped : Type := mkStamped {
  header : Header;
  stats : FormationStatistics
}.

Record FormationStatisticsArray : Type := mkArray {
  vector : list FormationStatisticsStamped
}.

End agent_test.

Module geometry_msgs.

Module Point.
Record t : Type := mk { x : R; y : R; z : R }.
End Point.

Module Quaternion.
Record t : Type := mk { x : R; y : R; z : R; w : R }.
End Quaternion.

Module Vector3.
Record t : Type := mk { x : R; y : R; z : R }.
End Vector3.

Module Pose.
Record t : Type := mk { position : Point.t; orientation : Quaternion.t }.
End Pose.

Module Twist.
Record t : Type := mk { linear : Vector3.t; angular : Vector3.t }.
End Twist.

End geometry_msgs.

Import agent_test geometry_msgs.

(** ** rosout

    The node's log, at the default verbosity: the DEBUG streams are below
    it and leave no entry. *)

Inductive Level : Set := INFO | WARN | ERROR.

Definition LogEntry : Set := (Level * string)%type.

Definition string_of_nat (n : nat) : string :=
  NilZero.string_of_uint (Nat.to_uint n).

(** ** std::stoi

    [std::stoi(str)] with the default base 10: leading white space is
    skipped, an optional sign is read, then the longest run of decimal
    digits; what follows the digits is ignored.  No digit at all throws
    [std::invalid_argument]; a value that does not fit an [int] throws
    [std::out_of_range]. *)

Definition isspace (c : ascii) : bool :=
  let n := nat_of_ascii c in
  (n =? 32)%nat || ((9 <=? n)%nat && (n <=? 13)%nat).

Definition digit_of (c : ascii) : option Z :=
  let n := nat_of_ascii c in
  if (48 <=? n)%nat && (n <=? 57)%nat then Some (Z.of_nat n - 48)%Z else None.

Fixpoint skip_spaces (s : string) : string :=
  match s with
  | String c rest => if isspace c then skip_spaces rest else s
  | EmptyString => s
  end.

(** The value of the longest prefix of digits, after [acc]; [seen] tells
    whether a digit was read. *)
Fixpoint read_digits (s : string) (acc : Z) (seen : bool) : option Z :=
  match s with
  | String c rest =>
      match digit_of c with
      | Some d => read_digits rest (10 * acc + d)%Z true
      | None => if seen then Some acc else None
      end
  | EmptyString => if seen then Some acc else None
  end.

Definition INT_MIN : Z := (- 2147483648)%Z.
Definition INT_MAX : Z := 2147483647%Z.

Definition stoi (str : string) : Result Z :=
  let s := skip_spaces str in
  let '(negative, body) :=
    match s with
    | String "-"%char rest => (true, rest)
    | String "+"%char rest => (false, rest)
    | _ => (false, s)
    end in
  match read_digits body 0%Z false with
  | None => Raise std_invalid_argument
  | Some v =>
      let n := if negative then (- v)%Z else v in
      if (INT_MIN <=? n)%Z && (n <=? INT_MAX)%Z then Ok n
      else Raise std_out_of_range
  end.

(** [std::vector::at]. *)
Definition at_ {A} (v : list A) (i : nat) : Result A :=
  match nth_error v i with
  | Some a => Ok a
  | None => Raise std_out_of_range
  end.

(** ** The members of AgentCore

    [Parameters] holds what the constructor reads from the parameter server
    and never assigns again; [AgentCore] adds the members the callbacks
    assign, and the log. *)

Record Parameters : Type := mkParameters {
  number_of_stats_ : nat;
  number_of_velocities_ : nat;
  sample_time_ : R;
  velocity_virtual_threshold_ : R;
  los_distance_threshold_ : R;
  speed_min_ : R;
  speed_max_ : R;
  steer_min_ : R;
  steer_max_ : R;
  k_p_speed_ : R;
  k_i_speed_ : R;
  k_p_steer_ : R;
  vehicle_length_ : R;
  gamma_ : Eigen.MatrixXd;
  lambda_ : Eigen.MatrixXd;
  b_ : Eigen.MatrixXd;
  neighbours_ : list Z;
  agent_id_ : string
}.

Record AgentCore : Type := mkAgentCore {
  parameters :> Parameters;
  jacob_phi_ : Eigen.MatrixXd;
  phi_dot_ : Eigen.VectorXd;
  pose_ : Pose.t;
  pose_virtual_ : Pose.t;
  twist_ : Twist.t;
  twist_virtual_ : Twist.t;
  estimated_statistics_ : FormationStatistics;
  target_statistics_ : FormationStatistics;
  received_statistics_ : list FormationStatistics;
  los_distance_ : R;
  los_angle_ : R;
  speed_error_ : R;
  speed_integral_ : R;
  speed_command_sat_ : R;
  steer_command_sat_ : R;
  rosout : list LogEntry
}.

(** Assignment to one member: every other member is kept. *)
Definition set_jacob_phi_ (v : Eigen.MatrixXd) (self : AgentCore) : AgentCore :=
  {| parameters := parameters self; jacob_phi_ := v;
     phi_dot_ := phi_dot_ self; pose_ := pose_ self;
     pose_virtual_ := pose_virtual_ self; twist_ := twist_ self;
     twist_virtual_ := twist_virtual_ self;
     estimated_statistics_ := estimated_statistics_ self;
     target_statistics_ := target_statistics_ self;
     received_statistics_ := received_statistics_ self;
     los_distance_ := los_distance_ self; los_angle_ := los_angle_ self;
     speed_error_ := speed_error_ self;
     speed_integral_ := speed_integral_ self;
     speed_command_sat_ := speed_command_sat_ self;
     steer_command_sat_ := steer_command_sat_ self; rosout := rosout self |}.

Definition set_phi_dot_ (v : Eigen.VectorXd) (self : AgentCore) : AgentCore :=
  {| parameters := parameters self; jacob_phi_ := jacob_phi_ self;
     phi_dot_ := v; pose_ := pose_ self; pose_virtual_ := pose_virtual_ self;
     twist_ := twist_ self; twist_virtual_ := twist_virtual_ self;
     estimated_statistics_ := estimated_statistics_ self;
     target_statistics_ := target_statistics_ self;
     received_statistics_ := received_statistics_ self;
     los_distance_ := los_distance_ self; los_angle_ := los_angle_ self;
     speed_error_ := speed_error_ self;
     speed_integral_ := speed_integral_ self;
     speed_command_sat_ := speed_command_sat_ self;
     steer_command_sat_ := steer_command_sat_ self; rosout := rosout self |}.

Definition set_pose_ (v : Pose.t) (self : AgentCore) : AgentCore :=
  {| parameters := parameters self; jacob_phi_ := jacob_phi_ self;
     phi_dot_ := phi_dot_ self; pose_ := v;
     pose_virtual_ := pose_virtual_ self; twist_ := twist_ self;
     twist_virtual_ := twist_virtual_ self;
     estimated_statistics_ := estimated_statistics_ self;
     target_statistics_ := target_statistics_ self;
     received_statistics_ := received_statistics_ self;
     los_distance_ := los_distance_ self; los_angle_ := los_angle_ self;
     speed_error_ := speed_error_ self;
     speed_integral_ := speed_integral_ self;
     speed_command_sat_ := speed_command_sat_ self;
     steer_command_sat_ := steer_command_sat_ self; rosout := rosout self |}.

Definition set_pose_virtual_ (v : Pose.t) (self : AgentCore) : AgentCore :=
  {| parameters := parameters self; jacob_phi_ := jacob_phi_ self;
     phi_dot_ := phi_dot_ self; pose_ := pose_ self; pose_virtual_ := v;
     twist_ := twist_ self; twist_virtual_ := twist_virtual_ self;
     estimated_statistics_ := estimated_statistics_ self;
     target_statistics_ := target_statistics_ self;
     received_statistics_ := received_statistics_ self;
     los_distance_ := los_distance_ self; los_angle_ := los_angle_ self;
     speed_error_ := speed_error_ self;
     speed_integral_ := speed_integral_ self;
     speed_command_sat_ := speed_command_sat_ self;
     steer_command_sat_ := steer_command_sat_ self; rosout := rosout self |}.

Definition set_twist_ (v : Twist.t) (self : AgentCore) : AgentCore :=
  {| parameters := parameters self; jacob_phi_ := jacob_phi_ self;
     phi_dot_ := phi_dot_ self; pose_ := pose_ self;
     pose_virtual_ := pose_virtual_ self; twist_ := v;
     twist_virtual_ := twist_virtual_ self;
     estimated_statistics_ := estimated_statistics_ self;
     target_statistics_ := target_statistics_ self;
     received_statistics_ := received_statistics_ self;
     los_distance_ := los_distance_ self; los_angle_ := los_angle_ self;
     speed_error_ := speed_error_ self;
     speed_integral_ := speed_integral_ self;
     speed_command_sat_ := speed_command_sat_ self;
     steer_command_sat_ := steer_command_sat_ self; rosout := rosout self |}.

Definition set_twist_virtual_ (v : Twist.t) (self : AgentCore) : AgentCore :=
  {| parameters := parameters self; jacob_phi_ := jacob_phi_ self;
     phi_dot_ := phi_dot_ self; pose_ := pose_ self;
     pose_virtual_ := pose_virtual_ self; twist_ := twist_ self;
     twist_virtual_ := v;
     estimated_statistics_ := estimated_statistics_ self;
     target_statistics_ := target_statistics_ self;
     received_statistics_ := received_statistics_ self;
     los_distance_ := los_distance_ self; los_angle_ := los_angle_ self;
     speed_error_ := speed_error_ self;
     speed_integral_ := speed_integral_ self;
     speed_command_sat_ := speed_command_sat_ self;
     steer_command_sat_ := steer_command_sat_ self; rosout := rosout self |}.

Definition set_estimated_statistics_ (v : FormationStatistics) (self : AgentCore) : AgentCore :=
  {| parameters := parameters self; jacob_phi_ := jacob_phi_ self;
     phi_dot_ := phi_dot_ self; pose_ := pose_ self;
     pose_virtual_ := pose_virtual_ self; twist_ := twist_ self;
     twist_virtual_ := twist_virtual_ self; estimated_statistics_ := v;
     target_statistics_ := target_statistics_ self;
     received_statistics_ := received_statistics_ self;
     los_distance_ := los_distance_ self; los_angle_ := los_angle_ self;
     speed_error_ := speed_error_ self;
     speed_integral_ := speed_integral_ self;
     speed_command_sat_ := speed_command_sat_ self;
     steer_command_sat_ := steer_command_sat_ self; rosout := rosout self |}.

Definition set_target_statistics_ (v : FormationStatistics) (self : AgentCore) : AgentCore :=
  {| parameters := parameters self; jacob_phi_ := jacob_phi_ self;
     phi_dot_ := phi_dot_ self; pose_ := pose_ self;
     pose_virtual_ := pose_virtual_ self; twist_ := twist_ self;
     twist_virtual_ := twist_virtual_ self;
     estimated_statistics_ := estimated_statistics_ self;
     target_statistics_ := v;
     received_statistics_ := received_statistics_ self;
     los_distance_ := los_distance_ self; los_angle_ := los_angle_ self;
     speed_error_ := speed_error_ self;
     speed_integral_ := speed_integral_ self;
     speed_command_sat_ := speed_command_sat_ self;
     steer_command_sat_ := steer_command_sat_ self; rosout := rosout self |}.

Definition set_received_statistics_ (v : list FormationStatistics) (self : AgentCore) : AgentCore :=
  {| parameters := parameters self; jacob_phi_ := jacob_phi_ self;
     phi_dot_ := phi_dot_ self; pose_ := pose_ self;
     pose_virtual_ := pose_virtual_ self; twist_ := twist_ self;
     twist_virtual_ := twist_virtual_ self;
     estimated_statistics_ := estimated_statistics_ self;
     target_statistics_ := target_statistics_ self;
     received_statistics_ := v; los_distance_ := los_distance_ self;
     los_angle_ := los_angle_ self; speed_error_ := speed_error_ self;
     speed_integral_ := speed_integral_ self;
     speed_command_sat_ := speed_command_sat_ self;
     steer_command_sat_ := steer_command_sat_ self; rosout := rosout self |}.

Definition set_los_distance_ (v : R) (self : AgentCore) : AgentCore :=
  {| parameters := parameters self; jacob_phi_ := jacob_phi_ self;
     phi_dot_ := phi_dot_ self; pose_ := pose_ self;
     pose_virtual_ := pose_virtual_ self; twist_ := twist_ self;
     twist_virtual_ := twist_virtual_ self;
     estimated_statistics_ := estimated_statistics_ self;
     target_statistics_ := target_statistics_ self;
     received_statistics_ := received_statistics_ self; los_distance_ := v;
     los_angle_ := los_angle_ self; speed_error_ := speed_error_ self;
     speed_integral_ := speed_integral_ self;
     speed_command_sat_ := speed_command_sat_ self;
     steer_command_sat_ := steer_command_sat_ self; rosout := rosout self |}.

Definition set_los_angle_ (v : R) (self : AgentCore) : AgentCore :=
  {| parameters := parameters self; jacob_phi_ := jacob_phi_ self;
     phi_dot_ := phi_dot_ self; pose_ := pose_ self;
     pose_virtual_ := pose_virtual_ self; twist_ := twist_ self;
     twist_virtual_ := twist_virtual_ self;
     estimated_statistics_ := estimated_statistics_ self;
     target_statistics_ := target_statistics_ self;
     received_statistics_ := received_statistics_ self;
     los_distance_ := los_distance_ self; los_angle_ := v;
     speed_error_ := speed_error_ self;
     speed_integral_ := speed_integral_ self;
     speed_command_sat_ := speed_command_sat_ self;
     steer_command_sat_ := steer_command_sat_ self; rosout := rosout self |}.

Definition set_speed_error_ (v : R) (self : AgentCore) : AgentCore :=
  {| parameters := parameters self; jacob_phi_ := jacob_phi_ self;
     phi_dot_ := phi_dot_ self; pose_ := pose_ self;
     pose_virtual_ := pose_virtual_ self; twist_ := twist_ self;
     twist_virtual_ := twist_virtual_ self;
     estimated_statistics_ := estimated_statistics_ self;
     target_statistics_ := target_statistics_ self;
     received_statistics_ := received_statistics_ self;
     los_distance_ := los_distance_ self; los_angle_ := los_angle_ self;
     speed_error_ := v; speed_integral_ := speed_integral_ self;
     speed_command_sat_ := speed_command_sat_ self;
     steer_command_sat_ := steer_command_sat_ self; rosout := rosout self |}.

Definition set_speed_integral_ (v : R) (self : AgentCore) : AgentCore :=
  {| parameters := parameters self; jacob_phi_ := jacob_phi_ self;
     phi_dot_ := phi_dot_ self; pose_ := pose_ self;
     pose_virtual_ := pose_virtual_ self; twist_ := twist_ self;
     twist_virtual_ := twist_virtual_ self;
     estimated_statistics_ := estimated_statistics_ self;
     target_statistics_ := target_statistics_ self;
     received_statistics_ := received_statistics_ self;
     los_distance_ := los_distance_ self; los_angle_ := los_angle_ self;
     speed_error_ := speed_error_ self; speed_integral_ := v;
     speed_command_sat_ := speed_command_sat_ self;
     steer_command_sat_ := steer_command_sat_ self; rosout := rosout self |}.

Definition set_speed_command_sat_ (v : R) (self : AgentCore) : AgentCore :=
  {| parameters := parameters self; jacob_phi_ := jacob_phi_ self;
     phi_dot_ := phi_dot_ self; pose_ := pose_ self;
     pose_virtual_ := pose_virtual_ self; twist_ := twist_ self;
     twist_virtual_ := twist_virtual_ self;
     estimated_statistics_ := estimated_statistics_ self;
     target_statistics_ := target_statistics_ self;
     received_statistics_ := received_statistics_ self;
     los_distance_ := los_distance_ self; los_angle_ := los_angle_ self;
     speed_error_ := speed_error_ self;
     speed_integral_ := speed_integral_ self; speed_command_sat_ := v;
     steer_command_sat_ := steer_command_sat_ self; rosout := rosout self |}.

Definition set_steer_command_sat_ (v : R) (self : AgentCore) : AgentCore :=
  {| parameters := parameters self; jacob_phi_ := jacob_phi_ self;
     phi_dot_ := phi_dot_ self; pose_ := pose_ self;
     pose_virtual_ := pose_virtual_ self; twist_ := twist_ self;
     twist_virtual_ := twist_virtual_ self;
     estimated_statistics_ := estimated_statistics_ self;
     target_statistics_ := target_statistics_ self;
     received_statistics_ := received_statistics_ self;
     los_distance_ := los_distance_ self; los_angle_ := los_angle_ self;
     speed_error_ := speed_error_ self;
     speed_integral_ := speed_integral_ self;
     speed_command_sat_ := speed_command_sat_ self; steer_command_sat_ := v;
     rosout := rosout self |}.

Definition set_rosout (v : list LogEntry) (self : AgentCore) : AgentCore :=
  {| parameters := parameters self; jacob_phi_ := jacob_phi_ self;
     phi_dot_ := phi_dot_ self; pose_ := pose_ self;
     pose_virtual_ := pose_virtual_ self; twist_ := twist_ self;
     twist_virtual_ := twist_virtual_ self;
     estimated_statistics_ := estimated_statistics_ self;
     target_statistics_ := target_statistics_ self;
     received_statistics_ := received_statistics_ self;
     los_distance_ := los_distance_ self; los_angle_ := los_angle_ self;
     speed_error_ := speed_error_ self;
     speed_integral_ := speed_integral_ self;
     speed_command_sat_ := speed_command_sat_ self;
     steer_command_sat_ := steer_command_sat_ self; rosout := v |}.

(** Assignment to one coordinate of a pose or of a twist. *)
Definition set_position_x (v : R) (p : Pose.t) : Pose.t :=
  Pose.mk (Point.mk v (Point.y (Pose.position p)) (Point.z (Pose.position p)))
          (Pose.orientation p).

Definition set_position_y (v : R) (p : Pose.t) : Pose.t :=
  Pose.mk (Point.mk (Point.x (Pose.position p)) v (Point.z (Pose.position p)))
          (Pose.orientation p).

Definition set_orientation (q : Quaternion.t) (p : Pose.t) : Pose.t :=
  Pose.mk (Pose.position p) q.

Definition set_linear_x (v : R) (t : Twist.t) : Twist.t :=
  Twist.mk (Vector3.mk v (Vector3.y (Twist.linear t)) (Vector3.z (Twist.linear t)))
           (Twist.angular t).

Definition set_linear_y (v : R) (t : Twist.t) : Twist.t :=
  Twist.mk (Vector3.mk (Vector3.x (Twist.linear t)) v (Vector3.z (Twist.linear t)))
           (Twist.angular t).

Definition set_angular_z (v : R) (t : Twist.t) : Twist.t :=
  Twist.mk (Twist.linear t)
           (Vector3.mk (Vector3.x (Twist.angular t)) (Vector3.y (Twist.angular t)) v).

(** ** Member functions as state transformers *)

Definition M (A : Type) : Type := AgentCore -> Result (A * AgentCore).

Definition ret {A} (a : A) : M A := fun self => Ok (a, self).

Definition bind {A B} (m : M A) (k : A -> M B) : M B :=
  fun self =>
    match m self with
    | Ok (a, self') => k a self'
    | Raise f => Raise f
    end.

(** The object as it is when the statement runs. *)
Definition this : M AgentCore := fun self => Ok (self, self).

Definition assign (f : AgentCore -> AgentCore) : M unit :=
  fun self => Ok (tt, f self).

Definition lift {A} (r : Result A) : M A :=
  fun self =>
    match r with
    | Ok a => Ok (a, self)
    | Raise f => Raise f
    end.

Definition log (l : Level) (text : string) : M unit :=
  assign (fun self => set_rosout (rosout self ++ [(l, text)]) self).

Declare Scope member_scope.
Delimit Scope member_scope with member.
Notation "x <- m ;; k" := (bind m (fun x => k))
  (at level 61, m at next level, right associativity) : member_scope.
Notation "m ;; k" := (bind m (fun _ => k))
  (at level 61, right associativity) : member_scope.

(** ** libm functions that the real-number library does not name *)

(** [std::atan2(y, x)]: the angle of the point [(x, y)], and 0 at the
    origin. *)
Definition atan2 (y x : R) : R :=
  if Rlt_dec 0 x then atan (y / x)
  else if Rlt_dec x 0 then
         (if Rle_dec 0 y then atan (y / x) + PI else atan (y / x) - PI)
  else if Rlt_dec 0 y then PI / 2
  else if Rlt_dec y 0 then - (PI / 2)
  else 0.

(** Rounding towards zero. *)
Definition trunc (r : R) : R :=
  if Rle_dec 0 r then IZR (Int_part r) else - IZR (Int_part (- r)).

(** [std::fmod(a, b)]: the remainder of [a / b] with the sign of [a]. *)
Definition fmod (a b : R) : R := a - trunc (a / b) * b.

(** ** Statistics codec and numeric helpers (agent_core.cpp:193-252) *)

Definition integrator (self : AgentCore) (out_old in_old in_new k : R) : R :=
  out_old + k * sample_time_ self * (in_old + in_new) / 2.

Definition saturation (value min max : R) : R :=
  Rmin (Rmax value min) max.

Open Scope result_scope.

Definition statsMsgToVector (self : AgentCore) (msg : FormationStatistics)
  : Result Eigen.VectorXd :=
  Eigen.comma5 (number_of_stats_ self)
    (m_x msg) (m_y msg) (m_xx msg) (m_xy msg) (m_yy msg).

(** The loop of [statsMsgToMatrix], with [count] iterations left from
    index [i]. *)
Fixpoint statsMsgToMatrix_loop (self : AgentCore) (msg : list FormationStatistics)
    (count i : nat) (matrix : Eigen.MatrixXd) : Result Eigen.MatrixXd :=
  match count with
  | O => Ok matrix
  | S count' =>
      entry <- at_ msg i ;;
      v <- statsMsgToVector self entry ;;
      matrix' <- Eigen.row_set matrix i v ;;
      statsMsgToMatrix_loop self msg count' (S i) matrix'
  end.

(** [Eigen::MatrixXd matrix(n, n)] leaves the coefficients unset; every one
    of them is assigned by the loop before the matrix is returned. *)
Definition statsMsgToMatrix (self : AgentCore) (msg : list FormationStatistics)
  : Result Eigen.MatrixXd :=
  let n := number_of_stats_ self in
  statsMsgToMatrix_loop self msg n 0 (Eigen.mkMatrix n n (fun _ _ => 0)).

Close Scope result_scope.
Open Scope member_scope.

Definition wrong_size_text (n : nat) : string :=
  "[AgentCore::statsVectorToMsg] Wrong statistics vector size ("
  ++ string_of_nat n ++ ")".

Definition statsVectorToMsg (vector : Eigen.VectorXd) : M FormationStatistics :=
  self <- this ;;
  if negb (Eigen.size vector =? number_of_stats_ self)%nat then
    log ERROR (wrong_size_text (Eigen.size vector)) ;;
    ret FormationStatistics_default
  else
    c1 <- lift (Eigen.coeff vector 1) ;;
    c2 <- lift (Eigen.coeff vector 2) ;;
    c3 <- lift (Eigen.coeff vector 3) ;;
    c4 <- lift (Eigen.coeff vector 4) ;;
    c5 <- lift (Eigen.coeff vector 5) ;;
    ret (mkStats c1 c2 c3 c4 c5).

(** ** Topic callbacks (agent_core.cpp:197-207, 254-260) *)

Definition is_neighbour (self : AgentCore) (id : Z) : bool :=
  existsb (Z.eqb id) (neighbours_ self).

Fixpoint receivedStats_loop (data : list FormationStatisticsStamped) : M unit :=
  match data with
  | [] => ret tt
  | d :: rest =>
      id <- lift (stoi (frame_id (header d))) ;;
      self <- this ;;
      (if is_neighbour self id
       then assign (fun self =>
              set_received_statistics_ (received_statistics_ self ++ [stats d]) self)
       else ret tt) ;;
      receivedStats_loop rest
  end.

Definition stale_text : string :=
  "[AgentCore::receivedStatsCallback] Last received statistics has not been used.".

Definition receivedStatsCallback (received : FormationStatisticsArray) : M unit :=
  self <- this ;;
  (match received_statistics_ self with
   | [] => ret tt
   | _ :: _ => log WARN stale_text
   end) ;;
  receivedStats_loop (vector received).

Definition target_text : string :=
  "[AgentCore::targetStatsCallback] Target statistics has been changed.".

Definition targetStatsCallback (target : FormationStatistics) : M unit :=
  assign (set_target_statistics_ target) ;;
  log INFO target_text.

(** ** Consensus (agent_core.cpp:100-118) *)

(** The time derivative of phi(p) = [px, py, pxx, pxy, pyy] at the virtual
    agent.  [phi_dot_] is declared in agent_core.h; the comma initialiser
    fills it at the size it has. *)
Definition phi_dot_of (self : AgentCore) : Result Eigen.VectorXd :=
  let p := Pose.position (pose_virtual_ self) in
  let v := Twist.linear (twist_virtual_ self) in
  Eigen.comma5 (Eigen.size (phi_dot_ self))
    (Vector3.x v)
    (Vector3.y v)
    (2 * Point.x p * Vector3.x v)
    (Point.y p * Vector3.x v + Point.x p * Vector3.y v)
    (2 * Point.y p * Vector3.y v).

(** [x + (phi_dot*S + (x_j.rowwise() - x).colwise().sum()*S)]. *)
Definition consensus_update (sample_time : R) (phi_dot x : Eigen.VectorXd)
    (x_j : Eigen.MatrixXd) : Result Eigen.VectorXd :=
  (differences <- Eigen.rowwise_sub x_j x ;;
   increment <- Eigen.vadd (Eigen.vscale phi_dot sample_time)
                  (Eigen.vscale (Eigen.colwise_sum differences) sample_time) ;;
   Eigen.vadd x increment)%result.

Definition consensus : M unit :=
  self <- this ;;
  x <- lift (statsMsgToVector self (estimated_statistics_ self)) ;;
  x_j <- lift (statsMsgToMatrix self (received_statistics_ self)) ;;
  assign (set_received_statistics_ []) ;;
  phi_dot <- lift (phi_dot_of self) ;;
  assign (set_phi_dot_ phi_dot) ;;
  x' <- lift (consensus_update (sample_time_ self) phi_dot x x_j) ;;
  msg <- statsVectorToMsg x' ;;
  assign (set_estimated_statistics_ msg).

(** ** Control (agent_core.cpp:120-147) *)

(** Lines 123-126: the entries of the jacobian that depend on the virtual
    position. *)
Definition update_jacobian (p : Point.t) (jacob_phi : Eigen.MatrixXd)
  : Result Eigen.MatrixXd :=
  (j <- Eigen.mcoeff_set jacob_phi 3 1 (2 * Point.x p) ;;
   j <- Eigen.mcoeff_set j 4 1 (Point.y p) ;;
   j <- Eigen.mcoeff_set j 4 2 (Point.x p) ;;
   Eigen.mcoeff_set j 5 2 (2 * Point.y p))%result.

(** Lines 129-130: inv(B + Jphi'*lambda*Jphi) * Jphi' * gamma * stats_error. *)
Definition control_law_of (self : AgentCore) (jacob_phi : Eigen.MatrixXd)
    (stats_error : Eigen.VectorXd) : Result Eigen.VectorXd :=
  (let jt := Eigen.transpose jacob_phi in
   jtl <- Eigen.mmul jt (lambda_ self) ;;
   jtlj <- Eigen.mmul jtl jacob_phi ;;
   a <- Eigen.madd (b_ self) jtlj ;;
   a_inv <- Eigen.inverse a ;;
   k <- Eigen.mmul a_inv jt ;;
   kg <- Eigen.mmul k (gamma_ self) ;;
   Eigen.mvmul kg stats_error)%result.

(** Lines 133-136: the saturation of the control command. *)
Definition saturate_control_law (velocity_virtual_threshold : R)
    (control_law : Eigen.VectorXd) : Result Eigen.VectorXd :=
  (c1 <- Eigen.coeff control_law 1 ;;
   c2 <- Eigen.coeff control_law 2 ;;
   let current_velocity_virtual := sqrt (c1 ^ 2 + c2 ^ 2) in
   Ok (if Rgt_dec current_velocity_virtual velocity_virtual_threshold
       then Eigen.vscale control_law
              (velocity_virtual_threshold / current_velocity_virtual)
       else control_law))%result.

Definition control : M unit :=
  self <- this ;;
  target <- lift (statsMsgToVector self (target_statistics_ self)) ;;
  estimated <- lift (statsMsgToVector self (estimated_statistics_ self)) ;;
  stats_error <- lift (Eigen.vsub target estimated) ;;
  jacob_phi <- lift (update_jacobian (Pose.position (pose_virtual_ self))
                       (jacob_phi_ self)) ;;
  assign (set_jacob_phi_ jacob_phi) ;;
  control_law <- lift (control_law_of self jacob_phi stats_error) ;;
  control_law <- lift (saturate_control_law (velocity_virtual_threshold_ self)
                         control_law) ;;
  u1 <- lift (Eigen.coeff control_law 1) ;;
  assign (fun self =>
    set_pose_virtual_
      (set_position_x
         (integrator self (Point.x (Pose.position (pose_virtual_ self)))
            (Vector3.x (Twist.linear (twist_virtual_ self))) u1 1)
         (pose_virtual_ self)) self) ;;
  u2 <- lift (Eigen.coeff control_law 2) ;;
  assign (fun self =>
    set_pose_virtual_
      (set_position_y
         (integrator self (Point.y (Pose.position (pose_virtual_ self)))
            (Vector3.y (Twist.linear (twist_virtual_ self))) u2 1)
         (pose_virtual_ self)) self) ;;
  assign (fun self =>
    set_twist_virtual_ (set_linear_x u1 (twist_virtual_ self)) self) ;;
  assign (fun self =>
    set_twist_virtual_ (set_linear_y u2 (twist_virtual_ self)) self).

(** ** Heading, guidance and dynamics (agent_core.cpp:149-191, 213-223) *)

(** Hamilton product, and the quaternion of a rotation about one axis. *)
Definition quat_mul (p q : Quaternion.t) : Quaternion.t :=
  let '(Quaternion.mk px py pz pw) := p in
  let '(Quaternion.mk qx qy qz qw) := q in
  Quaternion.mk
    (pw * qx + px * qw + py * qz - pz * qy)
    (pw * qy - px * qz + py * qw + pz * qx)
    (pw * qz + px * qy - py * qx + pz * qw)
    (pw * qw - px * qx - py * qy - pz * qz).

Definition AngleAxis_UnitX (a : R) : Quaternion.t :=
  Quaternion.mk (sin (a / 2)) 0 0 (cos (a / 2)).
Definition AngleAxis_UnitY (a : R) : Quaternion.t :=
  Quaternion.mk 0 (sin (a / 2)) 0 (cos (a / 2)).
Definition AngleAxis_UnitZ (a : R) : Quaternion.t :=
  Quaternion.mk 0 0 (sin (a / 2)) (cos (a / 2)).

Section Heading.

(** [q.normalized().matrix().eulerAngles(0, 1, 2)] of Eigen's Geometry
    module: roll, pitch and yaw of the rotation. *)
Variable eulerAngles : Quaternion.t -> R * R * R.

Definition getTheta (quat : Quaternion.t) : R :=
  let '(_, _, yaw) := eulerAngles quat in yaw.

Definition setTheta (quat : Quaternion.t) (theta : R) : Quaternion.t :=
  let '(roll, pitch, _) := eulerAngles quat in
  quat_mul (quat_mul (AngleAxis_UnitX roll) (AngleAxis_UnitY pitch))
           (AngleAxis_UnitZ theta).

(** The speed reference divides by [los_distance_threshold_]: what is
    stated of it supposes a threshold that is not zero. *)
Definition guidance : M unit :=
  assign (fun self =>
    let p := Pose.position (pose_ self) in
    let pv := Pose.position (pose_virtual_ self) in
    set_los_distance_
      (sqrt ((Point.x pv - Point.x p) ^ 2 + (Point.y pv - Point.y p) ^ 2))
      self) ;;
  assign (fun self =>
    let p := Pose.position (pose_ self) in
    let pv := Pose.position (pose_virtual_ self) in
    set_los_angle_
      (atan2 (Point.y pv - Point.y p) (Point.x pv - Point.x p)) self) ;;
  self <- this ;;
  let speed_reference :=
    Rmin (speed_max_ self * los_distance_ self / los_distance_threshold_ self)
         (speed_max_ self) in
  let speed_error_old := speed_error_ self in
  assign (set_speed_error_
    (speed_reference
     - sqrt (Vector3.x (Twist.linear (twist_ self)) ^ 2
             + Vector3.y (Twist.linear (twist_ self)) ^ 2))) ;;
  assign (fun self =>
    set_speed_integral_
      (integrator self (speed_integral_ self) speed_error_old
         (speed_error_ self) (k_i_speed_ self)) self) ;;
  self <- this ;;
  let speed_command := k_p_speed_ self * (speed_error_ self + speed_integral_ self) in
  assign (set_speed_command_sat_
    (saturation speed_command (speed_min_ self) (speed_max_ self))) ;;
  self <- this ;;
  let steer_command :=
    k_p_steer_ self
    * fmod (los_angle_ self - getTheta (Pose.orientation (pose_ self))) PI in
  assign (set_steer_command_sat_
    (saturation steer_command (steer_min_ self) (steer_max_ self))).

(** The turn rate divides by [vehicle_length_]: what is stated of it
    supposes a length that is not zero. *)
Definition dynamics : M unit :=
  self <- this ;;
  let theta := getTheta (Pose.orientation (pose_ self)) in
  let x_dot_new := speed_command_sat_ self * cos theta in
  (* line 152: y_dot_new = twist_.linear.y = ... *)
  let y_dot_new := speed_command_sat_ self * sin theta in
  assign (fun self => set_twist_ (set_linear_y y_dot_new (twist_ self)) self) ;;
  let theta_dot_new :=
    speed_command_sat_ self / vehicle_length_ self * tan (steer_command_sat_ self) in
  assign (fun self =>
    set_pose_
      (set_position_x
         (integrator self (Point.x (Pose.position (pose_ self)))
            (Vector3.x (Twist.linear (twist_ self))) x_dot_new 1)
         (pose_ self)) self) ;;
  assign (fun self =>
    set_pose_
      (set_position_y
         (integrator self (Point.y (Pose.position (pose_ self)))
            (Vector3.y (Twist.linear (twist_ self))) y_dot_new 1)
         (pose_ self)) self) ;;
  assign (fun self =>
    set_pose_
      (set_orientation
         (setTheta (Pose.orientation (pose_ self))
            (integrator self theta (Vector3.z (Twist.angular (twist_ self)))
               theta_dot_new 1))
         (pose_ self)) self) ;;
  assign (fun self => set_twist_ (set_linear_x x_dot_new (twist_ self)) self) ;;
  assign (fun self => set_twist_ (set_linear_y y_dot_new (twist_ self)) self) ;;
  assign (fun self => set_twist_ (set_angular_z theta_dot_new (twist_ self)) self).

End Heading.

Close Scope member_scope.

(** ** An agent as the constructor leaves it *)

(** Modelled from the spec: the default dimensions, which agent_core.h
    defines (DEFAULT_NUMBER_OF_STATS, DEFAULT_NUMBER_OF_VELOCITIES) and
    which is not among the sources: 5 statistics, and the virtual x and y
    velocities.  The gains are the constructor's defaults (gamma and B the
    identity, lambda zero); the scalar parameters are round numbers. *)
Definition example_parameters : Parameters :=
  {| number_of_stats_ := 5; number_of_velocities_ := 2;
     sample_time_ := 1 / 10;
     velocity_virtual_threshold_ := 1;
     los_distance_threshold_ := 1;
     speed_min_ := 0; speed_max_ := 1;
     steer_min_ := - 1; steer_max_ := 1;
     k_p_speed_ := 1; k_i_speed_ := 1; k_p_steer_ := 1;
     vehicle_length_ := 1;
     gamma_ := Eigen.asDiagonal (Eigen.Ones 5);
     lambda_ := Eigen.asDiagonal (Eigen.Zero 5);
     b_ := Eigen.asDiagonal (Eigen.Ones 2);
     neighbours_ := [1; 2; 3]%Z;
     agent_id_ := "0" |}.

Definition origin : Pose.t :=
  Pose.mk (Point.mk 0 0 0) (Quaternion.mk 0 0 0 1).

Definition at_rest : Twist.t :=
  Twist.mk (Vector3.mk 0 0 0) (Vector3.mk 0 0 0).

(** The jacobian is the rectangular identity the constructor assigns; the
    agent is at rest at the origin and has received nothing. *)
Definition example_agent : AgentCore :=
  {| parameters := example_parameters;
     jacob_phi_ := Eigen.Identity 5 2;
     phi_dot_ := Eigen.Zero 5;
     pose_ := origin; pose_virtual_ := origin;
     twist_ := at_rest; twist_virtual_ := at_rest;
     estimated_statistics_ := FormationStatistics_default;
     target_statistics_ := mkStats 0 0 1 0 1;
     received_statistics_ := [];
     los_distance_ := 0; los_angle_ := 0;
     speed_error_ := 0; speed_integral_ := 0;
     speed_command_sat_ := 0; steer_command_sat_ := 0;
     rosout := [] |}.

(** The Euler angles of a rotation about the vertical axis, the rotations
    of a planar agent. *)
Definition planar_eulerAngles (q : Quaternion.t) : R * R * R :=
  (0, 0, 2 * atan (Quaternion.z q / Quaternion.w q)).

(** ** Vocabulary of the statements *)

(** The jacobian keeps the dimensions the constructor gave it. *)
Definition constructed (self : AgentCore) : Prop :=
  Eigen.rows (jacob_phi_ self) = number_of_stats_ self
  /\ Eigen.cols (jacob_phi_ self) = number_of_velocities_ self.

(** The frame id is one [std::stoi] converts. *)
Definition numeric (d : FormationStatisticsStamped) : Prop :=
  completes (stoi (frame_id (header d))) = true.

(** The observations of a batch whose frame id converts to the id of a
    neighbour, in arrival order. *)
Definition from_neighbour (self : AgentCore) (d : FormationStatisticsStamped) : bool :=
  match stoi (frame_id (header d)) with
  | Ok id => is_neighbour self id
  | Raise _ => false
  end.

Definition accepted (self : AgentCore) (data : list FormationStatisticsStamped)
  : list FormationStatistics :=
  map stats (filter (from_neighbour self) data).

(** An agent that was moving along y at 2 and is commanded to stop. *)
Definition stopping_agent : AgentCore :=
  set_twist_ (Twist.mk (Vector3.mk 0 2 0) (Vector3.mk 0 0 0)) example_agent.

(** A buffer of five observations. *)
Definition five_observations : list FormationStatistics :=
  [mkStats 1 0 1 0 0; mkStats 0 1 0 0 1; mkStats 1 1 1 1 1;
   mkStats 2 0 4 0 0; mkStats 0 2 0 0 4].

(** Batches for the receive handler: one from the agents 1, 7 and 3, one
    with a frame name in it, one from the agent 2 alone; and an agent whose
    buffer still holds an observation. *)
Definition observation (id : string) (s : FormationStatistics)
  : FormationStatisticsStamped :=
  mkStamped (mkHeader id) s.

Definition numeric_batch : FormationStatisticsArray :=
  mkArray [observation "1" (mkStats 1 1 1 1 1);
           observation "7" (mkStats 2 2 2 2 2);
           observation "3" (mkStats 3 3 3 3 3)].

Definition named_batch : FormationStatisticsArray :=
  mkArray [observation "1" (mkStats 1 1 1 1 1);
           observation "agent_2" (mkStats 2 2 2 2 2)].

Definition fresh_batch : FormationStatisticsArray :=
  mkArray [observation "2" (mkStats 2 2 2 2 2)].

Definition stale_agent : AgentCore :=
  set_received_statistics_ [mkStats 1 1 1 1 1] example_agent.

(** ** The timer callback (agent_core.cpp:86-98) *)

Section Pipeline.

Variable eulerAngles : Quaternion.t -> R * R * R.

(** One tick: the consensus step, the message with the new estimate under
    the agent's own frame id (its stamp is not modelled), then control,
    guidance and dynamics.  The callback is given the published message as
    its value. *)
Definition algorithmCallback : M FormationStatisticsStamped :=
  (consensus ;;
   self <- this ;;
   let msg := mkStamped (mkHeader (agent_id_ self)) (estimated_statistics_ self) in
   control ;;
   guidance eulerAngles ;;
   dynamics eulerAngles ;;
   ret msg)%member.

End Pipeline.

(** ** The packet manager (packet_manager_core.cpp:146-162, 260-269)

    The frame ids and the poses that [processPackets] builds from a serial
    packet. *)

(** [std::to_string] of an [int]: the decimal digits, after a minus sign
    for a negative number. *)
Definition to_string (n : Z) : string :=
  NilZero.string_of_int (Z.to_int n).

Definition agent_frame (frame_agent_prefix : string) (agent_id : Z) : string :=
  frame_agent_prefix ++ to_string agent_id.

Definition agent_frame_virtual (frame_agent_prefix frame_virtual_suffix : string)
    (agent_id : Z) : string :=
  agent_frame frame_agent_prefix agent_id ++ frame_virtual_suffix.

(** The estimated statistics of a packet as they are published. *)
Definition msg_estimated_statistics (frame_agent_prefix frame_virtual_suffix : string)
    (agent_id : Z) (packet_stats : FormationStatistics)
  : FormationStatisticsStamped :=
  mkStamped
    (mkHeader (agent_frame_virtual frame_agent_prefix frame_virtual_suffix agent_id))
    packet_stats.

(** [tf::createQuaternionFromRPY]: roll about X, then pitch about Y, then
    yaw about Z, the axes being fixed. *)
Definition createQuaternionFromRPY (roll pitch yaw : R) : Quaternion.t :=
  quat_mul (quat_mul (AngleAxis_UnitZ yaw) (AngleAxis_UnitY pitch))
           (AngleAxis_UnitX roll).

Definition setPose (x y theta : R) : Pose.t :=
  Pose.mk (Point.mk x y 0) (createQuaternionFromRPY 0 0 theta).

(** The squared norm of a quaternion. *)
Definition squared_norm (q : Quaternion.t) : R :=
  Quaternion.x q ^ 2 + Quaternion.y q ^ 2 + Quaternion.z q ^ 2
  + Quaternion.w q ^ 2.

(** The five moments of an observation, in the order of the codec. *)
Definition moments (msg : FormationStatistics) : Eigen.VectorXd :=
  [m_x msg; m_y msg; m_xx msg; m_xy msg; m_yy msg].

(** The value of a decimal writing read from its first digit, after
    [acc]; and the strings at which a run of digits ends. *)
Fixpoint decimal_value (d : Decimal.uint) (acc : Z) : Z :=
  match d with
  | Decimal.Nil => acc
  | Decimal.D0 l => decimal_value l (10 * acc + 0)
  | Decimal.D1 l => decimal_value l (10 * acc + 1)
  | Decimal.D2 l => decimal_value l (10 * acc + 2)
  | Decimal.D3 l => decimal_value l (10 * acc + 3)
  | Decimal.D4 l => decimal_value l (10 * acc + 4)
  | Decimal.D5 l => decimal_value l (10 * acc + 5)
  | Decimal.D6 l => decimal_value l (10 * acc + 6)
  | Decimal.D7 l => decimal_value l (10 * acc + 7)
  | Decimal.D8 l => decimal_value l (10 * acc + 8)
  | Decimal.D9 l => decimal_value l (10 * acc + 9)
  end%Z.

Definition ends_digits (s : string) : Prop :=
  match s with
  | EmptyString => True
  | String c _ => digit_of c = None
  end.

(** The first character of a string is neither white space, nor a sign,
    nor a digit. *)
Definition starts_name (s : string) : Prop :=
  match s with
  | EmptyString => False
  | String c _ =>
      isspace c = false /\ digit_of c = None
      /\ c <> "-"%char /\ c <> "+"%char
  end.

(** A batch with one observation of a stranger. *)
Definition stranger_batch : FormationStatisticsArray :=
  mkArray [observation "7" (mkStats 2 2 2 2 2)].


(** * Properties *)

(** ** Index checks *)

Lemma coeff_out_of_range v i :
  (Eigen.size v <= i)%nat -> Eigen.coeff v i = Raise eigen_assert.
Proof.
  intros H. unfold Eigen.coeff.
  now rewrite (proj2 (nth_error_None v i) H).
Qed.

Lemma mcoeff_set_dims m i j c m' :
  Eigen.mcoeff_set m i j c = Ok m' ->
  Eigen.rows m' = Eigen.rows m /\ Eigen.cols m' = Eigen.cols m.
Proof.
  unfold Eigen.mcoeff_set. destruct (Eigen.in_range m i j); [|discriminate].
  intros [= <-]. now split.
Qed.

Lemma zip_with_length f u v :
  Eigen.size u = Eigen.size v -> Eigen.size (Eigen.zip_with f u v) = Eigen.size u.
Proof.
  unfold Eigen.size. revert v.
  induction u as [|a u IH]; intros [|b v]; simpl; try discriminate; auto.
Qed.

Lemma vadd_size u v w :
  Eigen.vadd u v = Ok w -> Eigen.size w = Eigen.size u.
Proof.
  unfold Eigen.vadd.
  destruct (Nat.eqb_spec (Eigen.size u) (Eigen.size v)) as [E|]; [|discriminate].
  intros [= <-]. now apply zip_with_length.
Qed.

(** ** Numeric helpers *)

(** At a constant rate the trapezoid is the rectangle. *)
Lemma integrator_constant_rate (self : AgentCore) out r :
  integrator self out r r 1 = out + r * sample_time_ self.
Proof. unfold integrator. field. Qed.

(** The bearing of a point on itself is 0. *)
Lemma atan2_origin : atan2 0 0 = 0.
Proof.
  unfold atan2. destruct (Rlt_dec 0 0) as [H|_]; [lra|reflexivity].
Qed.

(** The cofactor inverse on a 2-by-2 matrix: the adjugate over the
    determinant. *)
Lemma inverse_2x2 a b c d :
  let m := Eigen.mkMatrix 2 2
             (fun i j => match i, j with
                         | O, O => a | O, _ => b | S _, O => c | S _, _ => d
                         end) in
  exists m',
    Eigen.inverse m = Ok m'
    /\ Eigen.coeffs m' 0 0 = d / (a * d - b * c)
    /\ Eigen.coeffs m' 0 1 = - b / (a * d - b * c)
    /\ Eigen.coeffs m' 1 0 = - c / (a * d - b * c)
    /\ Eigen.coeffs m' 1 1 = a / (a * d - b * c).
Proof.
  intros m. eexists. split; [reflexivity|].
  repeat split;
    cbv [Eigen.coeffs Eigen.det Eigen.minor Eigen.skip Eigen.sum_upto
         Eigen.rows m Nat.ltb Nat.leb Nat.add pred pow];
    match goal with
    | |- ?n / ?dn = ?n' / ?dn' =>
        replace dn with dn' by ring; replace n with n' by ring; reflexivity
    end.
Qed.

(** ** Statistics codec *)

Lemma statsMsgToVector_five (self : AgentCore) msg :
  number_of_stats_ self = 5%nat ->
  statsMsgToVector self msg
  = Ok [m_x msg; m_y msg; m_xx msg; m_xy msg; m_yy msg].
Proof. intros H. unfold statsMsgToVector, Eigen.comma5. now rewrite H. Qed.

Lemma statsMsgToVector_size (self : AgentCore) msg v :
  statsMsgToVector self msg = Ok v ->
  number_of_stats_ self = 5%nat /\ Eigen.size v = 5%nat.
Proof.
  unfold statsMsgToVector, Eigen.comma5.
  destruct (Nat.eqb_spec (number_of_stats_ self) 5) as [E|]; [|discriminate].
  intros [= <-]. now split.
Qed.

(** With the dimension at 5, a vector of the right size is never
    converted: the message is filled from the coefficients 1 to 5, and a
    vector of five coefficients has none at index 5. *)
Lemma statsVectorToMsg_right_size (self : AgentCore) v :
  number_of_stats_ self = 5%nat -> Eigen.size v = 5%nat ->
  statsVectorToMsg v self = Raise eigen_assert.
Proof.
  intros Hn Hv.
  destruct v as [|c0 [|c1 [|c2 [|c3 [|c4 [|c5 v]]]]]]; try discriminate.
  unfold statsVectorToMsg, bind, this. simpl. rewrite Hn. reflexivity.
Qed.

(** What the conversion reads when it does return: with a dimension of 6
    the five moments are the coefficients 1 to 5 of the vector. *)
Lemma statsVectorToMsg_reads_from_one (self : AgentCore) c0 c1 c2 c3 c4 c5 :
  number_of_stats_ self = 6%nat ->
  statsVectorToMsg [c0; c1; c2; c3; c4; c5] self
  = Ok (mkStats c1 c2 c3 c4 c5, self).
Proof.
  intros Hn. unfold statsVectorToMsg, bind, this. simpl. rewrite Hn. reflexivity.
Qed.

(** C8. A vector whose size is not the statistics dimension is answered
    with an ERROR entry in the log and the default message, every moment
    at zero; the conversion returns, and no other member changes. *)
Theorem statsVectorToMsg_wrong_size (self : AgentCore) (v : Eigen.VectorXd) :
  Eigen.size v <> number_of_stats_ self ->
  statsVectorToMsg v self
  = Ok (FormationStatistics_default,
        set_rosout (rosout self ++ [(ERROR, wrong_size_text (Eigen.size v))]) self)
  /\ FormationStatistics_default = mkStats 0 0 0 0 0.
Proof.
  intros H. split; [|reflexivity].
  unfold statsVectorToMsg, bind, this.
  rewrite (proj2 (Nat.eqb_neq _ _) H). reflexivity.
Qed.

Lemma statsVectorToMsg_wrong_size_witness :
  Eigen.size [1; 2; 3] <> number_of_stats_ example_agent
  /\ statsVectorToMsg [1; 2; 3] example_agent
     = Ok (mkStats 0 0 0 0 0,
           set_rosout
             [(ERROR, "[AgentCore::statsVectorToMsg] Wrong statistics vector size (3)"%string)]
             example_agent).
Proof.
  assert (H : Eigen.size [1; 2; 3] <> number_of_stats_ example_agent)
    by (simpl; discriminate).
  split; [exact H|].
  exact (proj1 (statsVectorToMsg_wrong_size example_agent [1; 2; 3] H)).
Defined.

(** C2. The round trip of the codec does not return the message: the
    vector of (1, 2, 3, 4, 5) has its moments at the indices 0 to 4, and
    the conversion back reads the indices 1 to 5 and stops on the Eigen
    index assertion. *)
Theorem codec_round_trip_raises :
  statsMsgToVector example_agent (mkStats 1 2 3 4 5) = Ok [1; 2; 3; 4; 5]
  /\ statsVectorToMsg [1; 2; 3; 4; 5] example_agent = Raise eigen_assert.
Proof.
  split.
  - reflexivity.
  - apply statsVectorToMsg_right_size; reflexivity.
Qed.

(** ** Consensus *)

Lemma at_in_range {A} (v : list A) i :
  (i < List.length v)%nat -> exists a, at_ v i = Ok a.
Proof.
  intros H. unfold at_.
  destruct (nth_error v i) as [a|] eqn:E.
  - now exists a.
  - apply nth_error_None in E. lia.
Qed.

Lemma at_past_the_end {A} (v : list A) i :
  (List.length v <= i)%nat -> at_ v i = Raise std_out_of_range.
Proof.
  intros H. unfold at_. now rewrite (proj2 (nth_error_None v i) H).
Qed.

Lemma row_set_dims m i v m' :
  Eigen.row_set m i v = Ok m' ->
  Eigen.rows m' = Eigen.rows m /\ Eigen.cols m' = Eigen.cols m.
Proof.
  unfold Eigen.row_set.
  destruct ((i <? Eigen.rows m)%nat && (Eigen.size v =? Eigen.cols m)%nat);
    [|discriminate].
  intros [= <-]. now split.
Qed.

(** The loop reads the entries [i .. i + count - 1] and nothing else. *)
Lemma statsMsgToMatrix_loop_firstn self msg count : forall i matrix,
  statsMsgToMatrix_loop self msg count i matrix
  = statsMsgToMatrix_loop self (firstn (i + count) msg) count i matrix.
Proof.
  induction count as [|count IH]; intros i matrix; [reflexivity|].
  simpl. unfold at_ at 2. rewrite nth_error_firstn.
  replace (i <? i + S count)%nat with true
    by (symmetry; apply Nat.ltb_lt; lia).
  fold (at_ msg i).
  destruct (at_ msg i) as [entry|f]; simpl; [|reflexivity].
  destruct (statsMsgToVector self entry) as [v|f]; simpl; [|reflexivity].
  destruct (Eigen.row_set matrix i v) as [matrix'|f]; simpl; [|reflexivity].
  rewrite IH. now replace (S i + count)%nat with (i + S count)%nat by lia.
Qed.

(** Whatever follows the first [number_of_stats_] buffered observations
    has no part in the matrix of received statistics. *)
Lemma statsMsgToMatrix_firstn (self : AgentCore) msg :
  statsMsgToMatrix self msg
  = statsMsgToMatrix self (firstn (number_of_stats_ self) msg).
Proof.
  unfold statsMsgToMatrix. now rewrite statsMsgToMatrix_loop_firstn.
Qed.

(** A buffer shorter than the loop bound is read past its end. *)
Lemma statsMsgToMatrix_loop_short (self : AgentCore) msg :
  number_of_stats_ self = 5%nat ->
  forall count i matrix,
  Eigen.rows matrix = 5%nat -> Eigen.cols matrix = 5%nat ->
  (i + count = 5)%nat -> (i <= List.length msg < i + count)%nat ->
  statsMsgToMatrix_loop self msg count i matrix = Raise std_out_of_range.
Proof.
  intros Hn. induction count as [|count IH]; intros i matrix Hr Hc Hi Hlen;
    [lia|].
  simpl. destruct (Nat.eq_dec i (List.length msg)) as [E|NE].
  - rewrite at_past_the_end by lia. reflexivity.
  - destruct (at_in_range msg i) as [entry ->]; [lia|]. simpl.
    rewrite statsMsgToVector_five by assumption. simpl.
    unfold Eigen.row_set at 1. rewrite Hr, Hc.
    replace (i <? 5)%nat with true by (symmetry; apply Nat.ltb_lt; lia).
    simpl. apply IH; simpl; auto; lia.
Qed.

Lemma statsMsgToMatrix_short (self : AgentCore) msg :
  number_of_stats_ self = 5%nat -> (List.length msg < 5)%nat ->
  statsMsgToMatrix self msg = Raise std_out_of_range.
Proof.
  intros Hn Hlen. unfold statsMsgToMatrix. rewrite Hn.
  apply statsMsgToMatrix_loop_short; simpl; auto; lia.
Qed.

(** Fewer than five buffered observations: the consensus step throws
    out of [std::vector::at] before anything is assigned. *)
Lemma consensus_short_buffer (self : AgentCore) :
  number_of_stats_ self = 5%nat ->
  (List.length (received_statistics_ self) < 5)%nat ->
  consensus self = Raise std_out_of_range.
Proof.
  intros Hn Hlen. unfold consensus, bind, this, lift.
  rewrite statsMsgToVector_five by assumption.
  now rewrite statsMsgToMatrix_short.
Qed.

Lemma consensus_update_size dt phi_dot x x_j x' :
  consensus_update dt phi_dot x x_j = Ok x' -> Eigen.size x' = Eigen.size x.
Proof.
  unfold consensus_update.
  destruct (Eigen.rowwise_sub x_j x) as [d|]; simpl; [|discriminate].
  destruct (Eigen.vadd _ _) as [inc|]; simpl; [|discriminate].
  apply vadd_size.
Qed.


(** No consensus step returns, whatever the dimension and the buffer: the
    codec accepts a dimension of 5 only, and then the new estimate, a
    vector of five coefficients, is converted through the indices 1 to 5. *)
Lemma consensus_never_completes (self : AgentCore) :
  completes (consensus self) = false.
Proof.
  unfold consensus, bind, this, lift, assign.
  destruct (statsMsgToVector self (estimated_statistics_ self)) as [x|] eqn:Ex;
    [|reflexivity].
  apply statsMsgToVector_size in Ex as [Hn Hx].
  destruct (statsMsgToMatrix self (received_statistics_ self)) as [x_j|];
    [|reflexivity].
  destruct (phi_dot_of self) as [phi_dot|]; [|reflexivity].
  destruct (consensus_update _ phi_dot x x_j) as [x'|] eqn:Eu; [|reflexivity].
  apply consensus_update_size in Eu.
  rewrite statsVectorToMsg_right_size; [reflexivity|exact Hn|congruence].
Qed.

(** C1. The batch size is not free.  With one buffered observation the
    consensus step produces no estimate: the matrix of received statistics
    is filled by a loop of [number_of_stats_] = 5 iterations over the
    buffer, and the second of them reads past its end.  With six, the
    matrix, and with it the correction sum, is that of the first five. *)
Theorem consensus_reads_five_observations :
  consensus (set_received_statistics_ [mkStats 1 0 1 0 0] example_agent)
  = Raise std_out_of_range
  /\ statsMsgToMatrix example_agent (five_observations ++ [mkStats 9 9 9 9 9])
     = statsMsgToMatrix example_agent five_observations
  /\ completes (statsMsgToMatrix example_agent five_observations) = true.
Proof.
  split; [apply consensus_short_buffer; simpl; lia|].
  split; [|reflexivity].
  now rewrite statsMsgToMatrix_firstn.
Qed.

(** C6. The consensus step on an empty buffer, which is what a second step
    without a delivery in between runs on, does not complete: the loop
    that fills the matrix of received statistics reads the entry 0 of the
    empty buffer. *)
Theorem consensus_empty_buffer_throws :
  received_statistics_ example_agent = []
  /\ consensus example_agent = Raise std_out_of_range.
Proof. split; [reflexivity|]. apply consensus_short_buffer; simpl; lia. Qed.

(** ** Control *)

Lemma in_range_spec m i j :
  Eigen.in_range m i j = true <-> (i < Eigen.rows m)%nat /\ (j < Eigen.cols m)%nat.
Proof.
  unfold Eigen.in_range. rewrite andb_true_iff, !Nat.ltb_lt. reflexivity.
Qed.

(** The four writes need a sixth row and a third column. *)
Lemma update_jacobian_completes p jacob_phi jacob_phi' :
  update_jacobian p jacob_phi = Ok jacob_phi' ->
  (5 < Eigen.rows jacob_phi)%nat /\ (2 < Eigen.cols jacob_phi)%nat.
Proof.
  unfold update_jacobian.
  destruct (Eigen.mcoeff_set jacob_phi 3 1 _) as [j1|] eqn:E1; simpl; [|discriminate].
  destruct (Eigen.mcoeff_set j1 4 1 _) as [j2|] eqn:E2; simpl; [|discriminate].
  destruct (Eigen.mcoeff_set j2 4 2 _) as [j3|] eqn:E3; simpl; [|discriminate].
  intros E4.
  apply mcoeff_set_dims in E1 as [R1 C1], E2 as [R2 C2], E3 as [R3 C3].
  unfold Eigen.mcoeff_set in E4.
  destruct (Eigen.in_range j3 5 2) eqn:E; [|discriminate].
  apply in_range_spec in E. lia.
Qed.

Lemma update_jacobian_raises p jacob_phi :
  (Eigen.rows jacob_phi <= 5)%nat \/ (Eigen.cols jacob_phi <= 2)%nat ->
  update_jacobian p jacob_phi = Raise eigen_assert.
Proof.
  intros H.
  destruct (update_jacobian p jacob_phi) as [j|f] eqn:E.
  - apply update_jacobian_completes in E. lia.
  - destruct f; try reflexivity; exfalso; revert E; unfold update_jacobian;
      repeat (match goal with
              | |- context [Eigen.mcoeff_set ?m ?i ?j ?c] =>
                  unfold Eigen.mcoeff_set at 1;
                  destruct (Eigen.in_range m i j); simpl
              end); discriminate.
Qed.

(** No control step returns on an agent whose jacobian has one row per
    statistic: the codec needs 5 statistics, the last write a row 5. *)
Lemma control_never_completes (self : AgentCore) :
  constructed self -> completes (control self) = false.
Proof.
  intros [Hrows _]. unfold control, bind, this, lift, assign.
  destruct (statsMsgToVector self (target_statistics_ self)) as [t|] eqn:Et;
    [|reflexivity].
  apply statsMsgToVector_size in Et as [Hn _].
  destruct (statsMsgToVector self (estimated_statistics_ self)) as [e|];
    [|reflexivity].
  destruct (Eigen.vsub t e) as [stats_error|]; [|reflexivity].
  rewrite update_jacobian_raises; [reflexivity|]. left. lia.
Qed.

(** On a vector of two velocities the saturation cannot measure the
    command: its magnitude is taken from the coefficients 1 and 2. *)
Lemma saturate_control_law_two threshold ux uy :
  saturate_control_law threshold [ux; uy] = Raise eigen_assert.
Proof. reflexivity. Qed.

(** C3. The accesses of one control step, on 5 statistics and 2
    velocities: of the four jacobian writes, (3,1) and (4,1) are inside
    the 5-by-2 matrix, (4,2) and (5,2) are not; the index 2 of a command
    of two velocities is not inside it either; and the control step stops
    on the Eigen index assertion. *)
Theorem control_accesses_out_of_range :
  constructed example_agent
  /\ Eigen.in_range (jacob_phi_ example_agent) 3 1 = true
  /\ Eigen.in_range (jacob_phi_ example_agent) 4 1 = true
  /\ Eigen.in_range (jacob_phi_ example_agent) 4 2 = false
  /\ Eigen.in_range (jacob_phi_ example_agent) 5 2 = false
  /\ (forall u_x u_y, Eigen.coeff [u_x; u_y] 1 = Ok u_y
                      /\ Eigen.coeff [u_x; u_y] 2 = Raise eigen_assert)
  /\ control example_agent = Raise eigen_assert.
Proof.
  split; [now split|]. do 4 (split; [reflexivity|]).
  split; [intros; split; reflexivity|].
  reflexivity.
Qed.

(** C7. The saturation of the control step on a command of twice the
    threshold, and on a command at the threshold: neither is scaled nor
    passed through, the magnitude being computed from the coefficients 1
    and 2 of the vector of two velocities. *)
Theorem saturation_of_command_raises :
  velocity_virtual_threshold_ example_agent = 1
  /\ saturate_control_law (velocity_virtual_threshold_ example_agent) [2; 0]
     = Raise eigen_assert
  /\ saturate_control_law (velocity_virtual_threshold_ example_agent) [1; 0]
     = Raise eigen_assert.
Proof.
  split; [reflexivity|].
  split; apply saturate_control_law_two.
Qed.

(** ** Dynamics and guidance *)

Section HeadingFacts.

Variable eulerAngles : Quaternion.t -> R * R * R.

(** One dynamics step.  The rates of x and of theta are integrated from
    the stored and the new rate; the stored rate of y is assigned the new
    one before the integration, which therefore takes the new rate
    twice. *)
Lemma dynamics_step (self : AgentCore) :
  let theta := getTheta eulerAngles (Pose.orientation (pose_ self)) in
  let x_dot_new := speed_command_sat_ self * cos theta in
  let y_dot_new := speed_command_sat_ self * sin theta in
  let theta_dot_new :=
    speed_command_sat_ self / vehicle_length_ self * tan (steer_command_sat_ self) in
  exists self',
    dynamics eulerAngles self = Ok (tt, self')
    /\ Point.x (Pose.position (pose_ self'))
       = integrator self (Point.x (Pose.position (pose_ self)))
           (Vector3.x (Twist.linear (twist_ self))) x_dot_new 1
    /\ Point.y (Pose.position (pose_ self'))
       = integrator self (Point.y (Pose.position (pose_ self)))
           y_dot_new y_dot_new 1
    /\ Pose.orientation (pose_ self')
       = setTheta eulerAngles (Pose.orientation (pose_ self))
           (integrator self theta (Vector3.z (Twist.angular (twist_ self)))
              theta_dot_new 1)
    /\ Vector3.x (Twist.linear (twist_ self')) = x_dot_new
    /\ Vector3.y (Twist.linear (twist_ self')) = y_dot_new
    /\ Vector3.z (Twist.angular (twist_ self')) = theta_dot_new.
Proof.
  intros. cbv [dynamics bind this assign]. cbv beta.
  eexists. split; [reflexivity|]. simpl. repeat split.
Qed.

End HeadingFacts.

(** C4. The dynamics step of an agent moving along y at the rate 2 and
    commanded to stop, with a sample time of 1/10: the trapezoid between
    the stored rate 2 and the new rate 0 advances y by 1/10, and the code
    leaves y where it was. *)
Theorem dynamics_y_ignores_stored_rate (eulerAngles : Quaternion.t -> R * R * R) :
  exists self',
    dynamics eulerAngles stopping_agent = Ok (tt, self')
    /\ Vector3.y (Twist.linear (twist_ stopping_agent)) = 2
    /\ integrator stopping_agent
         (Point.y (Pose.position (pose_ stopping_agent)))
         (Vector3.y (Twist.linear (twist_ stopping_agent)))
         (speed_command_sat_ stopping_agent
          * sin (getTheta eulerAngles (Pose.orientation (pose_ stopping_agent))))
         1
       = 1 / 10
    /\ Point.y (Pose.position (pose_ self')) = 0.
Proof.
  destruct (dynamics_step eulerAngles stopping_agent)
    as (self' & E & _ & Hy & _).
  exists self'. split; [exact E|]. split; [reflexivity|]. split.
  - unfold integrator. simpl. lra.
  - rewrite Hy. unfold integrator. simpl. lra.
Qed.

(** [saturation] brings a value into an interval: below it the lower
    bound, above it the upper bound, inside it the value. *)
Lemma saturation_interval value min max :
  min <= max ->
  min <= saturation value min max <= max
  /\ (value < min -> saturation value min max = min)
  /\ (max < value -> saturation value min max = max)
  /\ (min <= value <= max -> saturation value min max = value).
Proof.
  intros H. unfold saturation, Rmin, Rmax.
  destruct (Rle_dec value min); destruct (Rle_dec _ max); repeat split; intros; lra.
Qed.

(** C9. The speed loop of one guidance step, the distance threshold not
    being zero: the reference is the smaller of
    speed_max * los_distance / los_distance_threshold and speed_max; the
    integral advances by the trapezoid of the previous and the current
    speed error, with the gain k_i_speed; the command is
    k_p_speed * (error + integral) brought into [speed_min, speed_max]. *)
Theorem guidance_speed_loop (eulerAngles : Quaternion.t -> R * R * R)
    (self : AgentCore) :
  los_distance_threshold_ self <> 0 ->
  let p := Pose.position (pose_ self) in
  let pv := Pose.position (pose_virtual_ self) in
  let los_distance :=
    sqrt ((Point.x pv - Point.x p) ^ 2 + (Point.y pv - Point.y p) ^ 2) in
  let speed_reference :=
    Rmin (speed_max_ self * los_distance / los_distance_threshold_ self)
         (speed_max_ self) in
  let speed_error :=
    speed_reference
    - sqrt (Vector3.x (Twist.linear (twist_ self)) ^ 2
            + Vector3.y (Twist.linear (twist_ self)) ^ 2) in
  let speed_integral :=
    speed_integral_ self
    + k_i_speed_ self * sample_time_ self * (speed_error_ self + speed_error) / 2 in
  let speed_command := k_p_speed_ self * (speed_error + speed_integral) in
  exists self',
    guidance eulerAngles self = Ok (tt, self')
    /\ los_distance_ self' = los_distance
    /\ speed_error_ self' = speed_error
    /\ speed_integral_ self' = speed_integral
    /\ speed_command_sat_ self' = Rmin (Rmax speed_command (speed_min_ self)) (speed_max_ self)
    /\ (speed_min_ self <= speed_max_ self ->
        speed_min_ self <= speed_command_sat_ self' <= speed_max_ self
        /\ (speed_command < speed_min_ self -> speed_command_sat_ self' = speed_min_ self)
        /\ (speed_max_ self < speed_command -> speed_command_sat_ self' = speed_max_ self)
        /\ (speed_min_ self <= speed_command <= speed_max_ self ->
            speed_command_sat_ self' = speed_command)).
Proof.
  intros Hthreshold. intros. cbv [guidance bind this assign]. cbv beta.
  eexists. split; [reflexivity|]. simpl.
  do 4 (split; [reflexivity|]).
  intros H. apply (saturation_interval speed_command _ _ H).
Qed.

Lemma guidance_speed_loop_witness :
  los_distance_threshold_ example_agent <> 0
  /\ speed_min_ example_agent <= speed_max_ example_agent
  /\ exists self',
       guidance planar_eulerAngles example_agent = Ok (tt, self')
       /\ speed_min_ example_agent <= speed_command_sat_ self'
          <= speed_max_ example_agent.
Proof.
  assert (Hthreshold : los_distance_threshold_ example_agent <> 0)
    by (simpl; lra).
  assert (H : speed_min_ example_agent <= speed_max_ example_agent)
    by (simpl; lra).
  split; [exact Hthreshold|]. split; [exact H|].
  destruct (guidance_speed_loop planar_eulerAngles example_agent Hthreshold)
    as (self' & E & _ & _ & _ & _ & Hsat).
  exists self'. split; [exact E|]. exact (proj1 (Hsat H)).
Defined.

(** ** The receive handler *)

Example stoi_decimal : stoi "2" = Ok 2%Z.
Proof. reflexivity. Qed.

Example stoi_prefix : stoi " -12abc" = Ok (-12)%Z.
Proof. reflexivity. Qed.

Example stoi_frame_name : stoi "agent_2" = Raise std_invalid_argument.
Proof. reflexivity. Qed.

Example stoi_empty : stoi "" = Raise std_invalid_argument.
Proof. reflexivity. Qed.

Example stoi_overflow : stoi "2147483648" = Raise std_out_of_range.
Proof. reflexivity. Qed.

Lemma stoi_failures str f :
  stoi str = Raise f -> f = std_invalid_argument \/ f = std_out_of_range.
Proof.
  unfold stoi.
  destruct (skip_spaces str) as [|c rest].
  - simpl. intros [= <-]. now left.
  - destruct (match String c rest with
              | String "-"%char r => (true, r)
              | String "+"%char r => (false, r)
              | _ => (false, String c rest)
              end) as [negative body].
    destruct (read_digits body 0%Z false) as [v|].
    + destruct ((INT_MIN <=? _)%Z && (_ <=? INT_MAX)%Z); [discriminate|].
      intros [= <-]. now right.
    + intros [= <-]. now left.
Qed.

Lemma set_received_statistics_same self :
  set_received_statistics_ (received_statistics_ self) self = self.
Proof. now destruct self. Qed.

(** The loop over a batch of numeric frame ids appends the accepted
    observations and touches nothing else. *)
Lemma receivedStats_loop_numeric data : forall self,
  Forall numeric data ->
  receivedStats_loop data self
  = Ok (tt, set_received_statistics_
              (received_statistics_ self ++ accepted self data) self).
Proof.
  induction data as [|d rest IH]; intros self Hnum.
  - unfold accepted. simpl. rewrite app_nil_r.
    now rewrite set_received_statistics_same.
  - inversion Hnum as [|? ? Hd Hrest]; subst.
    unfold numeric in Hd. unfold accepted. simpl.
    unfold from_neighbour at 1.
    unfold bind at 1. unfold lift.
    destruct (stoi (frame_id (header d))) as [id|]; [|discriminate].
    unfold bind at 1. unfold this. unfold bind at 1.
    destruct (is_neighbour self id).
    + unfold assign. rewrite IH by assumption. simpl.
      rewrite <- app_assoc. reflexivity.
    + unfold ret. now rewrite IH.
Qed.

(** The loop stops at the first frame id that does not convert. *)
Lemma receivedStats_loop_not_numeric data : forall self,
  Exists (fun d => ~ numeric d) data ->
  exists f, receivedStats_loop data self = Raise f
            /\ (f = std_invalid_argument \/ f = std_out_of_range).
Proof.
  induction data as [|d rest IH]; intros self Hex.
  - inversion Hex.
  - simpl. unfold bind at 1. unfold lift.
    destruct (stoi (frame_id (header d))) as [id|f] eqn:E.
    + assert (Hrest : Exists (fun d => ~ numeric d) rest).
      { inversion Hex as [? ? Hd|]; subst; [|assumption].
        exfalso. apply Hd. unfold numeric. now rewrite E. }
      unfold bind at 1. unfold this. unfold bind at 1.
      destruct (is_neighbour self id); [unfold assign|unfold ret]; now apply IH.
    + exists f. split; [reflexivity|]. now apply (stoi_failures _ _ E).
Qed.

(** The whole handler on a batch of numeric frame ids. *)
Lemma receivedStatsCallback_numeric (self : AgentCore) received :
  Forall numeric (vector received) ->
  receivedStatsCallback received self
  = Ok (tt, set_received_statistics_
              (received_statistics_ self ++ accepted self (vector received))
              (match received_statistics_ self with
               | [] => self
               | _ :: _ => set_rosout (rosout self ++ [(WARN, stale_text)]) self
               end)).
Proof.
  intros Hnum. unfold receivedStatsCallback, bind, this.
  destruct (received_statistics_ self) as [|s old] eqn:E.
  - unfold ret. rewrite receivedStats_loop_numeric by assumption. now rewrite E.
  - unfold log, assign. rewrite receivedStats_loop_numeric by assumption.
    simpl. now rewrite E.
Qed.

Lemma accepted_spec (self : AgentCore) data s :
  In s (accepted self data)
  <-> exists d id, In d data /\ stats d = s
                   /\ stoi (frame_id (header d)) = Ok id
                   /\ In id (neighbours_ self).
Proof.
  unfold accepted. rewrite in_map_iff. split.
  - intros (d & Hs & Hd). apply filter_In in Hd as [Hin Hn].
    unfold from_neighbour in Hn.
    destruct (stoi (frame_id (header d))) as [id|] eqn:E; [|discriminate].
    unfold is_neighbour in Hn. apply existsb_exists in Hn as (n & Hn & Heq).
    apply Z.eqb_eq in Heq. subst n. now exists d, id.
  - intros (d & id & Hin & Hs & E & Hn). exists d. split; [exact Hs|].
    apply filter_In. split; [exact Hin|].
    unfold from_neighbour. rewrite E. unfold is_neighbour.
    apply existsb_exists. exists id. split; [exact Hn|apply Z.eqb_refl].
Qed.

(** C10. The receive handler on a batch.  When every frame id is one that
    [std::stoi] converts, the handler returns and the buffer is the former
    buffer followed by the observations whose frame id converts to the id
    of a neighbour, in arrival order.  When some frame id is not, the
    handler does not return: the conversion throws. *)
Theorem receivedStatsCallback_filters_neighbours (self : AgentCore)
    (received : FormationStatisticsArray) :
  (Forall numeric (vector received) ->
   exists self',
     receivedStatsCallback received self = Ok (tt, self')
     /\ received_statistics_ self'
        = received_statistics_ self
          ++ map stats (filter (from_neighbour self) (vector received)))
  /\ (Exists (fun d => ~ numeric d) (vector received) ->
      exists f,
        receivedStatsCallback received self = Raise f
        /\ (f = std_invalid_argument \/ f = std_out_of_range)).
Proof.
  split.
  - intros Hnum. eexists. split.
    + now apply receivedStatsCallback_numeric.
    + reflexivity.
  - intros Hex. unfold receivedStatsCallback, bind, this.
    destruct (received_statistics_ self); [unfold ret|unfold log, assign];
      now apply receivedStats_loop_not_numeric.
Qed.

Lemma receivedStatsCallback_filters_neighbours_witness :
  (Forall numeric (vector numeric_batch)
   /\ exists self',
        receivedStatsCallback numeric_batch example_agent = Ok (tt, self')
        /\ received_statistics_ self' = [mkStats 1 1 1 1 1; mkStats 3 3 3 3 3])
  /\ (Exists (fun d => ~ numeric d) (vector named_batch)
      /\ exists f, receivedStatsCallback named_batch example_agent = Raise f).
Proof.
  assert (H1 : Forall numeric (vector numeric_batch))
    by (repeat constructor).
  assert (H2 : Exists (fun d => ~ numeric d) (vector named_batch))
    by (apply Exists_cons_tl, Exists_cons_hd; discriminate).
  split; (split; [assumption|]).
  - destruct (proj1 (receivedStatsCallback_filters_neighbours
                       example_agent numeric_batch) H1) as (self' & E & Hbuf).
    exists self'. split; [exact E|exact Hbuf].
  - destruct (proj2 (receivedStatsCallback_filters_neighbours
                       example_agent named_batch) H2) as (f & E & _).
    now exists f.
Defined.

(** C5, as stated, fails.  The buffer still holds one observation when a
    batch with one observation of the neighbour 2 is delivered: the handler
    returns, and the buffer is the stale observation followed by the new
    one, not the new one alone. *)
Lemma receivedStatsCallback_keeps_stale :
  received_statistics_ stale_agent = [mkStats 1 1 1 1 1]
  /\ accepted stale_agent (vector fresh_batch) = [mkStats 2 2 2 2 2]
  /\ exists self',
       receivedStatsCallback fresh_batch stale_agent = Ok (tt, self')
       /\ received_statistics_ self' = [mkStats 1 1 1 1 1; mkStats 2 2 2 2 2]
       /\ received_statistics_ self' <> [mkStats 2 2 2 2 2].
Proof.
  split; [reflexivity|]. split; [reflexivity|].
  eexists. split; [reflexivity|]. split; [reflexivity|]. discriminate.
Qed.

(** C5, amended.  A batch of numeric frame ids delivered while the buffer
    is not empty: the handler logs the warning and returns, and the buffer
    is the undrained observations followed by the accepted observations of
    the new batch. *)
Theorem receivedStatsCallback_appends_to_stale (self : AgentCore)
    (received : FormationStatisticsArray) :
  received_statistics_ self <> [] ->
  Forall numeric (vector received) ->
  receivedStatsCallback received self
  = Ok (tt, set_received_statistics_
              (received_statistics_ self ++ accepted self (vector received))
              (set_rosout (rosout self ++ [(WARN, stale_text)]) self)).
Proof.
  intros Hstale Hnum. rewrite receivedStatsCallback_numeric by assumption.
  destruct (received_statistics_ self); [contradiction|reflexivity].
Qed.

Lemma receivedStatsCallback_appends_to_stale_witness :
  received_statistics_ stale_agent <> []
  /\ Forall numeric (vector fresh_batch)
  /\ receivedStatsCallback fresh_batch stale_agent
     = Ok (tt, set_received_statistics_ [mkStats 1 1 1 1 1; mkStats 2 2 2 2 2]
                 (set_rosout [(WARN, stale_text)] stale_agent)).
Proof.
  assert (H1 : received_statistics_ stale_agent <> []) by discriminate.
  assert (H2 : Forall numeric (vector fresh_batch)) by (repeat constructor).
  split; [exact H1|]. split; [exact H2|].
  exact (receivedStatsCallback_appends_to_stale stale_agent fresh_batch H1 H2).
Defined.

(** * Further properties of the agent and of the packet manager *)

(** ** The matrix of received statistics *)

Lemma statsMsgToMatrix_loop_rows (self : AgentCore) msg :
  number_of_stats_ self = 5%nat ->
  forall count i matrix,
  Eigen.rows matrix = 5%nat -> Eigen.cols matrix = 5%nat ->
  (i + count = 5)%nat -> (5 <= List.length msg)%nat ->
  exists matrix',
    statsMsgToMatrix_loop self msg count i matrix = Ok matrix'
    /\ Eigen.rows matrix' = 5%nat /\ Eigen.cols matrix' = 5%nat
    /\ (forall r j, (r < i)%nat ->
        Eigen.coeffs matrix' r j = Eigen.coeffs matrix r j)
    /\ (forall r obs j, (i <= r)%nat -> nth_error msg r = Some obs ->
        (r < 5)%nat -> Eigen.coeffs matrix' r j = nth j (moments obs) 0).
Proof.
  intros Hn. induction count as [|count IH]; intros i matrix Hr Hc Hi Hlen.
  - exists matrix. repeat split; auto. intros; lia.
  - simpl. destruct (at_in_range msg i) as [entry Hentry]; [lia|].
    rewrite Hentry. simpl. rewrite statsMsgToVector_five by assumption. simpl.
    unfold Eigen.row_set at 1. rewrite Hr, Hc.
    replace (i <? 5)%nat with true by (symmetry; apply Nat.ltb_lt; lia).
    simpl.
    destruct (IH (S i) (Eigen.mkMatrix 5 5
                (fun i' j => if (i' =? i)%nat
                             then nth j (moments entry) 0
                             else Eigen.coeffs matrix i' j)))
      as (matrix' & E & Hr' & Hc' & Hkeep & Hnew); simpl; auto; try lia.
    exists matrix'. split; [exact E|]. split; [exact Hr'|]. split; [exact Hc'|].
    split.
    + intros r j Hlt. rewrite Hkeep by lia. simpl.
      now replace (r =? i)%nat with false by (symmetry; apply Nat.eqb_neq; lia).
    + intros r obs j Hle Hobs Hr5.
      destruct (Nat.eq_dec r i) as [->|Hne].
      * rewrite Hkeep by lia. simpl. rewrite Nat.eqb_refl.
        unfold at_ in Hentry. rewrite Hobs in Hentry. now inversion Hentry.
      * apply Hnew; auto. lia.
Qed.

Lemma statsMsgToMatrix_five (self : AgentCore) (msg : list FormationStatistics) :
  number_of_stats_ self = 5%nat -> (5 <= List.length msg)%nat ->
  exists matrix,
    statsMsgToMatrix self msg = Ok matrix
    /\ Eigen.rows matrix = 5%nat /\ Eigen.cols matrix = 5%nat
    /\ (forall i obs j, (i < 5)%nat -> nth_error msg i = Some obs ->
        Eigen.coeffs matrix i j = nth j (moments obs) 0).
Proof.
  intros Hn Hlen. unfold statsMsgToMatrix. rewrite Hn.
  destruct (statsMsgToMatrix_loop_rows self msg Hn 5 0
              (Eigen.mkMatrix 5 5 (fun _ _ => 0)))
    as (matrix & E & Hr & Hc & _ & Hnew); simpl; auto.
  exists matrix. split; [exact E|]. split; [exact Hr|]. split; [exact Hc|].
  intros i obs j Hi Hobs. apply Hnew; auto. lia.
Qed.

(** X1. With the dimension at 5 and at least five buffered observations
    the matrix of received statistics is 5 by 5, and its row i holds the
    five moments of the i-th buffered observation, in the order of the
    codec. *)
Theorem statsMsgToMatrix_rows (self : AgentCore) (msg : list FormationStatistics) :
  number_of_stats_ self = 5%nat -> (5 <= List.length msg)%nat ->
  exists matrix,
    statsMsgToMatrix self msg = Ok matrix
    /\ Eigen.rows matrix = 5%nat /\ Eigen.cols matrix = 5%nat
    /\ (forall i obs j, (i < 5)%nat -> nth_error msg i = Some obs ->
        Eigen.coeffs matrix i j = nth j (moments obs) 0).
Proof. exact (statsMsgToMatrix_five self msg). Qed.

Lemma statsMsgToMatrix_rows_witness :
  number_of_stats_ example_agent = 5%nat
  /\ (5 <= List.length five_observations)%nat
  /\ exists matrix,
       statsMsgToMatrix example_agent five_observations = Ok matrix
       /\ Eigen.coeffs matrix 3 2 = 4.
Proof.
  assert (H1 : number_of_stats_ example_agent = 5%nat) by reflexivity.
  assert (H2 : (5 <= List.length five_observations)%nat) by (simpl; lia).
  split; [exact H1|]. split; [exact H2|].
  destruct (statsMsgToMatrix_rows example_agent five_observations H1 H2)
    as (matrix & E & _ & _ & Hrows).
  exists matrix. split; [exact E|].
  apply (Hrows 3%nat (mkStats 2 0 4 0 0) 2%nat); [lia|reflexivity].
Defined.

(** X2. The matrix of received statistics is built exactly when the
    dimension is 0, or the dimension is 5 and the buffer holds at least
    five observations; in every other case the function throws or stops on
    an Eigen assertion. *)
Theorem statsMsgToMatrix_completes_iff (self : AgentCore)
    (msg : list FormationStatistics) :
  completes (statsMsgToMatrix self msg) = true
  <-> number_of_stats_ self = 0%nat
      \/ (number_of_stats_ self = 5%nat /\ (5 <= List.length msg)%nat).
Proof.
  split.
  - intros H.
    destruct (Nat.eq_dec (number_of_stats_ self) 0) as [E0|N0]; [now left|].
    right.
    destruct (Nat.eq_dec (number_of_stats_ self) 5) as [E5|N5].
    + split; [exact E5|].
      destruct (le_lt_dec 5 (List.length msg)) as [Hle|Hlt]; [exact Hle|].
      rewrite statsMsgToMatrix_short in H by assumption. discriminate.
    + exfalso. unfold statsMsgToMatrix in H.
      destruct (number_of_stats_ self) as [|n] eqn:En; [congruence|].
      simpl in H. destruct (at_ msg 0) as [entry|]; simpl in H; [|discriminate].
      unfold statsMsgToVector, Eigen.comma5 in H. rewrite En in H.
      replace (S n =? 5)%nat with false in H
        by (symmetry; apply Nat.eqb_neq; congruence).
      discriminate.
  - intros [E0|[E5 Hlen]].
    + unfold statsMsgToMatrix. rewrite E0. reflexivity.
    + destruct (statsMsgToMatrix_five self msg E5 Hlen) as (matrix & E & _).
      now rewrite E.
Qed.

(** ** The conversion back to a message *)

(** X3. The conversion of a vector to a message returns exactly when the
    size of the vector is not the statistics dimension (the default
    message) or the vector has at least six coefficients (the coefficients
    1 to 5): a vector of the right size converts only if the dimension is
    6 or more. *)
Theorem statsVectorToMsg_completes_iff (self : AgentCore) (v : Eigen.VectorXd) :
  completes (statsVectorToMsg v self) = true
  <-> Eigen.size v <> number_of_stats_ self \/ (6 <= Eigen.size v)%nat.
Proof.
  unfold statsVectorToMsg, bind, this.
  destruct (Nat.eqb_spec (Eigen.size v) (number_of_stats_ self)) as [E|NE]; simpl.
  - destruct v as [|c0 [|c1 [|c2 [|c3 [|c4 [|c5 v]]]]]]; simpl; simpl in E;
      (split;
       [ intros H; first [discriminate | right; lia]
       | intros [H|H]; [congruence | first [reflexivity | lia]] ]).
  - split; [intros _; now left | reflexivity].
Qed.

(** ** The timer callback *)

(** X4. No tick of the timer completes, whatever the state of the agent:
    the callback stops in its consensus step, with the failure of that
    step, before the estimate is published and before control, guidance
    and dynamics run. *)
Theorem algorithmCallback_stops_in_consensus
    (eulerAngles : Quaternion.t -> R * R * R) (self : AgentCore) :
  exists f,
    consensus self = Raise f
    /\ algorithmCallback eulerAngles self = Raise f.
Proof.
  pose proof (consensus_never_completes self) as H.
  destruct (consensus self) as [[u self']|f] eqn:E; [discriminate|].
  exists f. split; [reflexivity|].
  unfold algorithmCallback, bind. now rewrite E.
Qed.

(** ** The jacobian and the saturation of the command *)

Lemma ltb_true a b : (a < b)%nat -> (a <? b)%nat = true.
Proof. apply Nat.ltb_lt. Qed.

(** X5. The four jacobian writes go through exactly when the matrix has
    more than 5 rows and more than 2 columns.  When they do, the matrix
    keeps its dimensions, the coefficients (3,1), (4,1), (4,2), (5,2)
    become 2x, y, x, 2y of the virtual position, and no other coefficient
    changes. *)
Theorem update_jacobian_writes (p : Point.t) (jacob_phi : Eigen.MatrixXd) :
  (completes (update_jacobian p jacob_phi) = true
   <-> (5 < Eigen.rows jacob_phi)%nat /\ (2 < Eigen.cols jacob_phi)%nat)
  /\ (forall jacob_phi',
      update_jacobian p jacob_phi = Ok jacob_phi' ->
      Eigen.rows jacob_phi' = Eigen.rows jacob_phi
      /\ Eigen.cols jacob_phi' = Eigen.cols jacob_phi
      /\ Eigen.coeffs jacob_phi' 3 1 = 2 * Point.x p
      /\ Eigen.coeffs jacob_phi' 4 1 = Point.y p
      /\ Eigen.coeffs jacob_phi' 4 2 = Point.x p
      /\ Eigen.coeffs jacob_phi' 5 2 = 2 * Point.y p
      /\ (forall i j, ~ In (i, j) [(3, 1); (4, 1); (4, 2); (5, 2)]%nat ->
          Eigen.coeffs jacob_phi' i j = Eigen.coeffs jacob_phi i j)).
Proof.
  assert (Hgo : (5 < Eigen.rows jacob_phi)%nat -> (2 < Eigen.cols jacob_phi)%nat ->
                update_jacobian p jacob_phi
                = Ok (Eigen.mkMatrix (Eigen.rows jacob_phi) (Eigen.cols jacob_phi)
                        (fun i j =>
                           if (i =? 5)%nat && (j =? 2)%nat then 2 * Point.y p
                           else if (i =? 4)%nat && (j =? 2)%nat then Point.x p
                           else if (i =? 4)%nat && (j =? 1)%nat then Point.y p
                           else if (i =? 3)%nat && (j =? 1)%nat then 2 * Point.x p
                           else Eigen.coeffs jacob_phi i j))).
  { intros Hr Hc. unfold update_jacobian, Eigen.mcoeff_set, Eigen.in_range.
    repeat (rewrite !ltb_true by lia; cbn [rbind andb Eigen.rows Eigen.cols]).
    reflexivity. }
  split.
  - split.
    + intros H. destruct (update_jacobian p jacob_phi) as [j|] eqn:E; [|discriminate].
      now apply update_jacobian_completes in E.
    + intros [Hr Hc]. now rewrite Hgo.
  - intros jacob_phi' E.
    destruct (update_jacobian_completes _ _ _ E) as [Hr Hc].
    rewrite Hgo in E by assumption. injection E as <-. simpl.
    do 6 (split; [reflexivity|]).
    intros i j Hnot.
    repeat match goal with
           | |- context [(?a =? ?b)%nat] =>
               destruct (Nat.eqb_spec a b); subst; simpl
           end; try reflexivity; exfalso; apply Hnot; simpl; tauto.
Qed.

(** X6. The saturation on a command that has the coefficients 1 and 2,
    as it measures them: the size is kept; a magnitude at or below the
    threshold passes the command through unchanged; a magnitude above it
    scales every coefficient by threshold / magnitude, after which the
    measured magnitude is exactly the threshold. *)
Theorem saturate_control_law_scales (threshold : R) (control_law : Eigen.VectorXd)
    (c1 c2 : R) :
  nth_error control_law 1 = Some c1 ->
  nth_error control_law 2 = Some c2 ->
  0 <= threshold ->
  exists u,
    saturate_control_law threshold control_law = Ok u
    /\ Eigen.size u = Eigen.size control_law
    /\ (sqrt (c1 ^ 2 + c2 ^ 2) <= threshold -> u = control_law)
    /\ (threshold < sqrt (c1 ^ 2 + c2 ^ 2) ->
        u = Eigen.vscale control_law (threshold / sqrt (c1 ^ 2 + c2 ^ 2))
        /\ exists u1 u2,
             nth_error u 1 = Some u1 /\ nth_error u 2 = Some u2
             /\ sqrt (u1 ^ 2 + u2 ^ 2) = threshold).
Proof.
  intros H1 H2 Hthr. unfold saturate_control_law, Eigen.coeff.
  rewrite H1, H2. cbn [rbind].
  set (m := sqrt (c1 ^ 2 + c2 ^ 2)).
  eexists. split; [reflexivity|].
  destruct (Rgt_dec m threshold) as [Hgt|Hle].
  - split; [unfold Eigen.vscale, Eigen.size; now rewrite length_map|].
    split; [intros Hle; lra|].
    intros _. split; [reflexivity|].
    exists (c1 * (threshold / m)), (c2 * (threshold / m)).
    unfold Eigen.vscale. rewrite !nth_error_map, H1, H2. simpl.
    do 2 (split; [reflexivity|]).
    assert (Hpos : 0 < m) by lra.
    assert (Hsq : c1 * c1 + c2 * c2 = m * m).
    { unfold m. rewrite sqrt_sqrt; [ring|]. nra. }
    replace (c1 * (threshold / m) * (c1 * (threshold / m) * 1)
             + c2 * (threshold / m) * (c2 * (threshold / m) * 1))
      with (threshold * threshold).
    + now apply sqrt_square.
    + transitivity ((c1 * c1 + c2 * c2) * (threshold / m) * (threshold / m));
        [|ring].
      rewrite Hsq. field. lra.
  - split; [reflexivity|].
    split; [reflexivity|].
    intros Hlt. lra.
Qed.

Lemma saturate_control_law_scales_witness :
  nth_error [0; 3; 4] 1 = Some 3
  /\ nth_error [0; 3; 4] 2 = Some 4
  /\ 0 <= 1
  /\ exists u,
       saturate_control_law 1 [0; 3; 4] = Ok u /\ Eigen.size u = 3%nat.
Proof.
  assert (H1 : nth_error [0; 3; 4] 1 = Some 3) by reflexivity.
  assert (H2 : nth_error [0; 3; 4] 2 = Some 4) by reflexivity.
  assert (H3 : 0 <= 1) by lra.
  split; [exact H1|]. split; [exact H2|]. split; [exact H3|].
  destruct (saturate_control_law_scales 1 [0; 3; 4] 3 4 H1 H2 H3)
    as (u & E & Hsize & _).
  exists u. split; [exact E|exact Hsize].
Defined.

(** X7. With the gains the constructor defaults to (gamma and B the
    identity, lambda zero), the control law on a jacobian of 5 rows and 2
    columns is the transposed jacobian times the statistics error. *)
Theorem control_law_default_gains (self : AgentCore) (c : nat -> nat -> R)
    (e0 e1 e2 e3 e4 : R) :
  lambda_ self = Eigen.asDiagonal (Eigen.Zero 5) ->
  b_ self = Eigen.asDiagonal (Eigen.Ones 2) ->
  gamma_ self = Eigen.asDiagonal (Eigen.Ones 5) ->
  control_law_of self (Eigen.mkMatrix 5 2 c) [e0; e1; e2; e3; e4]
  = Ok [c 0%nat 0%nat * e0 + c 1%nat 0%nat * e1 + c 2%nat 0%nat * e2
        + c 3%nat 0%nat * e3 + c 4%nat 0%nat * e4;
        c 0%nat 1%nat * e0 + c 1%nat 1%nat * e1 + c 2%nat 1%nat * e2
        + c 3%nat 1%nat * e3 + c 4%nat 1%nat * e4].
Proof.
  intros Hl Hb Hg. unfold control_law_of. rewrite Hl, Hb, Hg.
  cbv [Eigen.mmul Eigen.madd Eigen.inverse Eigen.mvmul Eigen.transpose
       Eigen.asDiagonal Eigen.Zero Eigen.Ones Eigen.size Eigen.rows Eigen.cols
       Eigen.coeffs rbind repeat List.length Nat.eqb andb seq map].
  f_equal.
  cbv [Eigen.sum_upto Eigen.det Eigen.minor Eigen.skip Nat.ltb Nat.leb
       Nat.eqb Nat.add pred pow nth].
  f_equal; [|f_equal];
    repeat match goal with
           | |- context [_ / ?d] => progress (replace d with 1 by ring)
           end;
    field.
Qed.

Lemma control_law_default_gains_witness :
  lambda_ example_agent = Eigen.asDiagonal (Eigen.Zero 5)
  /\ b_ example_agent = Eigen.asDiagonal (Eigen.Ones 2)
  /\ gamma_ example_agent = Eigen.asDiagonal (Eigen.Ones 5)
  /\ control_law_of example_agent
       (Eigen.mkMatrix 5 2 (Eigen.coeffs (Eigen.Identity 5 2))) [1; 2; 3; 4; 5]
     = Ok [1 * 1 + 0 * 2 + 0 * 3 + 0 * 4 + 0 * 5;
           0 * 1 + 1 * 2 + 0 * 3 + 0 * 4 + 0 * 5].
Proof.
  repeat split.
  exact (control_law_default_gains example_agent
           (Eigen.coeffs (Eigen.Identity 5 2)) 1 2 3 4 5
           eq_refl eq_refl eq_refl).
Defined.

(** ** Heading *)

Lemma squared_norm_mul p q :
  squared_norm (quat_mul p q) = squared_norm p * squared_norm q.
Proof. destruct p, q. unfold squared_norm, quat_mul. simpl. ring. Qed.

Lemma sin_cos_squares a : sin a * sin a + cos a * cos a = 1.
Proof. exact (sin2_cos2 a). Qed.

Lemma squared_norm_AngleAxis a :
  squared_norm (AngleAxis_UnitX a) = 1
  /\ squared_norm (AngleAxis_UnitY a) = 1
  /\ squared_norm (AngleAxis_UnitZ a) = 1.
Proof.
  unfold squared_norm, AngleAxis_UnitX, AngleAxis_UnitY, AngleAxis_UnitZ. simpl.
  pose proof (sin_cos_squares (a / 2)). repeat split; nra.
Qed.

(** X8. Whatever orientation it starts from and whatever Euler angles
    Eigen extracts from it, [setTheta] leaves a unit quaternion. *)
Theorem setTheta_unit (eulerAngles : Quaternion.t -> R * R * R)
    (quat : Quaternion.t) (theta : R) :
  squared_norm (setTheta eulerAngles quat theta) = 1.
Proof.
  unfold setTheta. destruct (eulerAngles quat) as [[roll pitch] yaw].
  rewrite !squared_norm_mul.
  destruct (squared_norm_AngleAxis roll) as (-> & _ & _).
  destruct (squared_norm_AngleAxis pitch) as (_ & -> & _).
  destruct (squared_norm_AngleAxis theta) as (_ & _ & ->).
  ring.
Qed.

(** X9. On an orientation without roll and pitch, [setTheta] writes the
    quaternion (0, 0, sin(theta/2), cos(theta/2)), which is also the
    orientation the packet manager's [setPose] gives a pose of the same
    heading; [setPose] puts the position at (x, y, 0). *)
Theorem setTheta_agrees_with_setPose (eulerAngles : Quaternion.t -> R * R * R)
    (quat : Quaternion.t) (yaw x y theta : R) :
  eulerAngles quat = (0, 0, yaw) ->
  setTheta eulerAngles quat theta
  = Quaternion.mk 0 0 (sin (theta / 2)) (cos (theta / 2))
  /\ Pose.orientation (setPose x y theta) = setTheta eulerAngles quat theta
  /\ Pose.position (setPose x y theta) = Point.mk x y 0.
Proof.
  intros H.
  assert (Hz : 0 / 2 = 0) by field.
  assert (E : setTheta eulerAngles quat theta
              = Quaternion.mk 0 0 (sin (theta / 2)) (cos (theta / 2))).
  { unfold setTheta. rewrite H.
    unfold quat_mul, AngleAxis_UnitX, AngleAxis_UnitY, AngleAxis_UnitZ.
    rewrite Hz, sin_0, cos_0. f_equal; ring. }
  split; [exact E|]. split; [|reflexivity].
  rewrite E. unfold setPose, createQuaternionFromRPY. simpl.
  unfold quat_mul, AngleAxis_UnitX, AngleAxis_UnitY, AngleAxis_UnitZ.
  rewrite Hz, sin_0, cos_0. f_equal; ring.
Qed.

Lemma setTheta_agrees_with_setPose_witness :
  planar_eulerAngles (Quaternion.mk 0 0 0 1) = (0, 0, 2 * atan (0 / 1))
  /\ setTheta planar_eulerAngles (Quaternion.mk 0 0 0 1) PI
     = Quaternion.mk 0 0 (sin (PI / 2)) (cos (PI / 2)).
Proof.
  assert (H : planar_eulerAngles (Quaternion.mk 0 0 0 1) = (0, 0, 2 * atan (0 / 1)))
    by reflexivity.
  split; [exact H|].
  exact (proj1 (setTheta_agrees_with_setPose planar_eulerAngles
                  (Quaternion.mk 0 0 0 1) (2 * atan (0 / 1)) 0 0 PI H)).
Defined.

(** ** Guidance *)

Lemma saturation_within value min max :
  min <= max -> min <= saturation value min max <= max.
Proof. intros H. now apply saturation_interval. Qed.

(** X10. A guidance step always returns, and assigns nothing but its six
    own members: the poses, the twists, the statistics, the buffer, the
    jacobian, the parameters and the log are as before.  The steer command
    is the gain times the remainder of the heading error by pi, brought
    into [steer_min, steer_max]. *)
Theorem guidance_steer_and_frame (eulerAngles : Quaternion.t -> R * R * R)
    (self : AgentCore) :
  exists self',
    guidance eulerAngles self = Ok (tt, self')
    /\ steer_command_sat_ self'
       = saturation
           (k_p_steer_ self
            * fmod (los_angle_ self'
                    - getTheta eulerAngles (Pose.orientation (pose_ self))) PI)
           (steer_min_ self) (steer_max_ self)
    /\ (steer_min_ self <= steer_max_ self ->
        steer_min_ self <= steer_command_sat_ self' <= steer_max_ self)
    /\ parameters self' = parameters self
    /\ pose_ self' = pose_ self /\ twist_ self' = twist_ self
    /\ pose_virtual_ self' = pose_virtual_ self
    /\ twist_virtual_ self' = twist_virtual_ self
    /\ estimated_statistics_ self' = estimated_statistics_ self
    /\ target_statistics_ self' = target_statistics_ self
    /\ received_statistics_ self' = received_statistics_ self
    /\ jacob_phi_ self' = jacob_phi_ self /\ phi_dot_ self' = phi_dot_ self
    /\ rosout self' = rosout self.
Proof.
  cbv [guidance bind this assign]. cbv beta.
  eexists. split; [reflexivity|]. simpl.
  split; [reflexivity|]. split; [apply saturation_within|].
  repeat split.
Qed.

(** X11. When the virtual agent is where the agent is, the guidance step
    finds a line of sight of length 0 and of angle 0 and, the distance
    threshold not being zero and the maximal speed not being negative, a
    speed reference of 0: the speed error is minus the current speed. *)
Theorem guidance_on_target (eulerAngles : Quaternion.t -> R * R * R)
    (self : AgentCore) :
  Point.x (Pose.position (pose_virtual_ self)) = Point.x (Pose.position (pose_ self)) ->
  Point.y (Pose.position (pose_virtual_ self)) = Point.y (Pose.position (pose_ self)) ->
  los_distance_threshold_ self <> 0 ->
  0 <= speed_max_ self ->
  exists self',
    guidance eulerAngles self = Ok (tt, self')
    /\ los_distance_ self' = 0
    /\ los_angle_ self' = 0
    /\ speed_error_ self'
       = - sqrt (Vector3.x (Twist.linear (twist_ self)) ^ 2
                 + Vector3.y (Twist.linear (twist_ self)) ^ 2).
Proof.
  intros Hx Hy Hthreshold Hmax. cbv [guidance bind this assign]. cbv beta.
  eexists. split; [reflexivity|]. simpl. rewrite Hx, Hy.
  replace (Point.x (Pose.position (pose_ self))
           - Point.x (Pose.position (pose_ self))) with 0 by ring.
  replace (Point.y (Pose.position (pose_ self))
           - Point.y (Pose.position (pose_ self))) with 0 by ring.
  replace (0 * (0 * 1) + 0 * (0 * 1)) with 0 by ring.
  rewrite sqrt_0, atan2_origin.
  split; [reflexivity|]. split; [reflexivity|].
  replace (speed_max_ self * 0 / los_distance_threshold_ self) with 0
    by (field; exact Hthreshold).
  rewrite Rmin_left by assumption. ring.
Qed.

Lemma guidance_on_target_witness :
  Point.x (Pose.position (pose_virtual_ example_agent))
  = Point.x (Pose.position (pose_ example_agent))
  /\ Point.y (Pose.position (pose_virtual_ example_agent))
     = Point.y (Pose.position (pose_ example_agent))
  /\ los_distance_threshold_ example_agent <> 0
  /\ 0 <= speed_max_ example_agent
  /\ exists self',
       guidance planar_eulerAngles example_agent = Ok (tt, self')
       /\ los_distance_ self' = 0 /\ los_angle_ self' = 0
       /\ speed_error_ self' = - sqrt (0 ^ 2 + 0 ^ 2).
Proof.
  assert (Hthreshold : los_distance_threshold_ example_agent <> 0)
    by (simpl; lra).
  assert (Hmax : 0 <= speed_max_ example_agent) by (simpl; lra).
  split; [reflexivity|]. split; [reflexivity|].
  split; [exact Hthreshold|]. split; [exact Hmax|].
  destruct (guidance_on_target planar_eulerAngles example_agent
              eq_refl eq_refl Hthreshold Hmax) as (self' & E & Hd & Ha & He).
  exists self'. split; [exact E|]. split; [exact Hd|]. split; [exact Ha|exact He].
Defined.

(** ** Dynamics *)



(** ** Deliveries *)

Lemma accepted_app (self : AgentCore) d1 d2 :
  accepted self (d1 ++ d2) = accepted self d1 ++ accepted self d2.
Proof. unfold accepted. now rewrite filter_app, map_app. Qed.

(** X13. Deliveries accumulate: two batches of numeric frame ids
    delivered one after the other, with no consensus step in between,
    leave the same buffer as a single delivery of the two batches put end
    to end, namely the former buffer, then what is accepted of the first
    batch, then what is accepted of the second. *)
Theorem receivedStatsCallback_deliveries_accumulate (self : AgentCore)
    (first second : FormationStatisticsArray) :
  Forall numeric (vector first) -> Forall numeric (vector second) ->
  exists self1 self2 self12,
    receivedStatsCallback first self = Ok (tt, self1)
    /\ receivedStatsCallback second self1 = Ok (tt, self2)
    /\ receivedStatsCallback (mkArray (vector first ++ vector second)) self
       = Ok (tt, self12)
    /\ received_statistics_ self2 = received_statistics_ self12
    /\ received_statistics_ self2
       = received_statistics_ self
         ++ accepted self (vector first) ++ accepted self (vector second).
Proof.
  intros H1 H2.
  pose proof (receivedStatsCallback_numeric self first H1) as E1.
  eexists. eexists. eexists.
  split; [exact E1|].
  split; [now apply receivedStatsCallback_numeric|].
  split; [apply receivedStatsCallback_numeric; simpl; now apply Forall_app|].
  simpl. rewrite accepted_app, <- app_assoc.
  split; destruct (received_statistics_ self); reflexivity.
Qed.

Lemma receivedStatsCallback_deliveries_accumulate_witness :
  Forall numeric (vector fresh_batch)
  /\ Forall numeric (vector numeric_batch)
  /\ exists self1 self2,
       receivedStatsCallback fresh_batch example_agent = Ok (tt, self1)
       /\ receivedStatsCallback numeric_batch self1 = Ok (tt, self2)
       /\ received_statistics_ self2
          = [mkStats 2 2 2 2 2; mkStats 1 1 1 1 1; mkStats 3 3 3 3 3].
Proof.
  assert (H1 : Forall numeric (vector fresh_batch)) by (repeat constructor).
  assert (H2 : Forall numeric (vector numeric_batch)) by (repeat constructor).
  split; [exact H1|]. split; [exact H2|].
  destruct (receivedStatsCallback_deliveries_accumulate
              example_agent fresh_batch numeric_batch H1 H2)
    as (self1 & self2 & self12 & E1 & E2 & _ & _ & Hbuf).
  exists self1, self2. split; [exact E1|]. split; [exact E2|exact Hbuf].
Defined.

(** X14. A batch of numeric frame ids none of which is a neighbour's (the
    empty batch among them) leaves the buffer as it is: with an empty
    buffer the handler changes nothing at all, with a buffer that still
    holds observations it only logs the warning. *)
Theorem receivedStatsCallback_strangers (self : AgentCore)
    (received : FormationStatisticsArray) :
  Forall numeric (vector received) ->
  Forall (fun d => from_neighbour self d = false) (vector received) ->
  receivedStatsCallback received self
  = Ok (tt, match received_statistics_ self with
            | [] => self
            | _ :: _ => set_rosout (rosout self ++ [(WARN, stale_text)]) self
            end).
Proof.
  intros Hnum Hnot. rewrite receivedStatsCallback_numeric by assumption.
  assert (E : accepted self (vector received) = []).
  { unfold accepted. induction (vector received) as [|d rest IH]; [reflexivity|].
    inversion Hnot as [|? ? Hd Hrest]; subst. inversion Hnum; subst.
    simpl. rewrite Hd. now apply IH. }
  rewrite E, app_nil_r.
  destruct (received_statistics_ self) eqn:Eb.
  - rewrite <- Eb. now rewrite set_received_statistics_same.
  - rewrite <- Eb.
    change (received_statistics_ self)
      with (received_statistics_
              (set_rosout (rosout self ++ [(WARN, stale_text)]) self)).
    now rewrite set_received_statistics_same.
Qed.

Lemma receivedStatsCallback_strangers_witness :
  Forall numeric (vector stranger_batch)
  /\ Forall (fun d => from_neighbour example_agent d = false) (vector stranger_batch)
  /\ receivedStatsCallback stranger_batch example_agent = Ok (tt, example_agent).
Proof.
  assert (H1 : Forall numeric (vector stranger_batch)) by (repeat constructor).
  assert (H2 : Forall (fun d => from_neighbour example_agent d = false)
                 (vector stranger_batch)) by (repeat constructor).
  split; [exact H1|]. split; [exact H2|].
  exact (receivedStatsCallback_strangers example_agent stranger_batch H1 H2).
Defined.

(** ** Frame ids of the packet manager *)

Lemma read_digits_ends s v :
  ends_digits s -> read_digits s v true = Some v.
Proof. destruct s as [|c s]; simpl; [reflexivity|]. now intros ->. Qed.

(** Reading the digits of a decimal writing. *)
Lemma read_digits_string_of_uint d : forall acc seen suffix,
  d <> Decimal.Nil -> ends_digits suffix ->
  read_digits (NilEmpty.string_of_uint d ++ suffix)%string acc seen
  = Some (decimal_value d acc).
Proof.
  induction d as [|d IH|d IH|d IH|d IH|d IH|d IH|d IH|d IH|d IH|d IH];
    intros acc seen suffix Hd Hs; [congruence|..];
    (destruct d as [|d'|d'|d'|d'|d'|d'|d'|d'|d'|d'] eqn:Ed;
     [ simpl; now apply read_digits_ends
     | rewrite <- Ed in *; simpl;
       apply IH; [rewrite Ed; discriminate|assumption] ..]).
Qed.

Lemma decimal_value_rev d : forall acc,
  decimal_value d acc
  = (acc * 10 ^ Z.of_N (DecimalPos.Unsigned.usize d)
     + Z.of_N (DecimalPos.Unsigned.of_lu (Decimal.rev d)))%Z.
Proof.
  unfold Decimal.rev.
  induction d as [|d IH|d IH|d IH|d IH|d IH|d IH|d IH|d IH|d IH|d IH];
    intros acc; [simpl; lia|..];
    (cbn [decimal_value Decimal.revapp DecimalPos.Unsigned.usize];
     rewrite (DecimalPos.Unsigned.of_lu_revapp d), IH; unfold Decimal.rev;
     match goal with
     | |- context [DecimalPos.Unsigned.of_lu (?f Decimal.Nil)] =>
         is_constructor f;
         let v := eval compute in (DecimalPos.Unsigned.of_lu (f Decimal.Nil)) in
         change (DecimalPos.Unsigned.of_lu (f Decimal.Nil)) with v
     end;
     rewrite N2Z.inj_add, N2Z.inj_mul, N2Z.inj_pow, N2Z.inj_succ;
     rewrite Z.pow_succ_r by apply N2Z.is_nonneg;
     repeat match goal with
            | |- context [Z.of_N (N.pos ?p)] =>
                change (Z.of_N (N.pos p)) with (Z.pos p)
            | |- context [Z.of_N 0%N] => change (Z.of_N 0%N) with 0%Z
            end;
     ring).
Qed.

Lemma decimal_value_to_uint p :
  decimal_value (Pos.to_uint p) 0 = Z.pos p.
Proof.
  rewrite decimal_value_rev, <- DecimalPos.Unsigned.of_uint_alt,
    DecimalPos.Unsigned.of_to. simpl. reflexivity.
Qed.

(** The digits of a positive number are read back as the number, behind
    no white space and no sign. *)
Lemma stoi_digits p suffix :
  ends_digits suffix ->
  skip_spaces (NilEmpty.string_of_uint (Pos.to_uint p) ++ suffix)%string
  = (NilEmpty.string_of_uint (Pos.to_uint p) ++ suffix)%string
  /\ read_digits (NilEmpty.string_of_uint (Pos.to_uint p) ++ suffix)%string 0 false
     = Some (Z.pos p)
  /\ exists c rest,
       (NilEmpty.string_of_uint (Pos.to_uint p) ++ suffix)%string = String c rest
       /\ c <> "-"%char /\ c <> "+"%char.
Proof.
  intros Hs.
  pose proof (DecimalPos.Unsigned.to_uint_nonnil p) as Hnil.
  split; [|split].
  - destruct (Pos.to_uint p); [congruence|reflexivity..].
  - rewrite read_digits_string_of_uint by assumption.
    apply f_equal, decimal_value_to_uint.
  - destruct (Pos.to_uint p); [congruence|..]; simpl;
      eexists; eexists; (split; [reflexivity|split; discriminate]).
Qed.

Lemma NilZero_string_of_uint_pos p :
  NilZero.string_of_uint (Pos.to_uint p) = NilEmpty.string_of_uint (Pos.to_uint p).
Proof.
  pose proof (DecimalPos.Unsigned.to_uint_nonnil p).
  destruct (Pos.to_uint p); [congruence|reflexivity..].
Qed.

Lemma stoi_minus body :
  stoi (String "-"%char body)
  = match read_digits body 0%Z false with
    | None => Raise std_invalid_argument
    | Some v =>
        if ((INT_MIN <=? - v)%Z && (- v <=? INT_MAX)%Z)%bool then Ok (- v)%Z
        else Raise std_out_of_range
    end.
Proof. reflexivity. Qed.

(** [std::stoi] reads back what [std::to_string] wrote, whatever follows
    that is not a digit. *)
Lemma stoi_to_string n suffix :
  (INT_MIN <= n <= INT_MAX)%Z -> ends_digits suffix ->
  stoi (to_string n ++ suffix)%string = Ok n.
Proof.
  intros Hrange Hs. unfold to_string.
  assert (Hin : ((INT_MIN <=? n)%Z && (n <=? INT_MAX)%Z) = true)
    by (apply andb_true_iff; split; apply Z.leb_le; lia).
  destruct n as [|p|p]; simpl Z.to_int; simpl NilZero.string_of_int.
  - unfold stoi. simpl. now rewrite read_digits_ends.
  - rewrite NilZero_string_of_uint_pos.
    destruct (stoi_digits p suffix Hs) as (Hsp & Hrd & c & rest & Hc & Hm & Hp).
    unfold stoi. rewrite Hsp, Hc.
    assert (Hbody : (match String c rest with
                     | String "-"%char r => (true, r)
                     | String "+"%char r => (false, r)
                     | _ => (false, String c rest)
                     end) = (false, String c rest)).
    { destruct c as [[|] [|] [|] [|] [|] [|] [|] [|]]; try reflexivity;
        congruence. }
    rewrite Hbody, <- Hc, Hrd. now rewrite Hin.
  - rewrite NilZero_string_of_uint_pos.
    destruct (stoi_digits p suffix Hs) as (_ & Hrd & _).
    change (String "-" (NilEmpty.string_of_uint (Pos.to_uint p)) ++ suffix)%string
      with (String "-" (NilEmpty.string_of_uint (Pos.to_uint p) ++ suffix))%string.
    rewrite stoi_minus, Hrd.
    change (- Z.pos p)%Z with (Z.neg p). now rewrite Hin.
Qed.

(** X15. Without a prefix, and with a suffix that does not begin with a
    digit, the frame id the packet manager gives the statistics of the
    agent [agent_id] is read back by the agent's handler as [agent_id]. *)
Theorem stoi_agent_frame_virtual (frame_virtual_suffix : string) (agent_id : Z) :
  (INT_MIN <= agent_id <= INT_MAX)%Z ->
  ends_digits frame_virtual_suffix ->
  stoi (agent_frame_virtual "" frame_virtual_suffix agent_id) = Ok agent_id.
Proof.
  intros Hrange Hs. unfold agent_frame_virtual, agent_frame. simpl.
  now apply stoi_to_string.
Qed.

Lemma stoi_agent_frame_virtual_witness :
  (INT_MIN <= 12 <= INT_MAX)%Z
  /\ ends_digits "_virtual"
  /\ agent_frame_virtual "" "_virtual" 12 = "12_virtual"%string
  /\ stoi "12_virtual" = Ok 12%Z.
Proof.
  assert (H1 : (INT_MIN <= 12 <= INT_MAX)%Z) by (unfold INT_MIN, INT_MAX; lia).
  assert (H2 : ends_digits "_virtual") by reflexivity.
  split; [exact H1|]. split; [exact H2|]. split; [reflexivity|].
  exact (stoi_agent_frame_virtual "_virtual" 12 H1 H2).
Defined.

Lemma stoi_starts_name s :
  starts_name s -> stoi s = Raise std_invalid_argument.
Proof.
  destruct s as [|c rest]; [contradiction|].
  intros (Hsp & Hd & Hm & Hp). unfold stoi. simpl. rewrite Hsp.
  assert (Hbody : (match String c rest with
                   | String "-"%char r => (true, r)
                   | String "+"%char r => (false, r)
                   | _ => (false, String c rest)
                   end) = (false, String c rest)).
  { destruct c as [[|] [|] [|] [|] [|] [|] [|] [|]]; try reflexivity;
      congruence. }
  rewrite Hbody. simpl. now rewrite Hd.
Qed.

(** X16. With a prefix that begins with a letter (with anything but white
    space, a sign or a digit), the frame id of the packet manager is one
    [std::stoi] refuses, and the agent's handler throws on every batch
    that holds statistics so framed. *)
Theorem receivedStatsCallback_named_frame (self : AgentCore)
    (received : FormationStatisticsArray)
    (frame_agent_prefix frame_virtual_suffix : string) (agent_id : Z)
    (packet_stats : FormationStatistics) :
  starts_name frame_agent_prefix ->
  In (msg_estimated_statistics frame_agent_prefix frame_virtual_suffix
        agent_id packet_stats) (vector received) ->
  stoi (agent_frame_virtual frame_agent_prefix frame_virtual_suffix agent_id)
  = Raise std_invalid_argument
  /\ exists f, receivedStatsCallback received self = Raise f.
Proof.
  intros Hname Hin.
  assert (E : stoi (agent_frame_virtual frame_agent_prefix frame_virtual_suffix
                      agent_id) = Raise std_invalid_argument).
  { apply stoi_starts_name. unfold agent_frame_virtual, agent_frame.
    destruct frame_agent_prefix; [contradiction|exact Hname]. }
  split; [exact E|].
  assert (Hex : Exists (fun d => ~ numeric d) (vector received)).
  { apply Exists_exists. eexists. split; [exact Hin|].
    unfold numeric. simpl. rewrite E. discriminate. }
  unfold receivedStatsCallback, bind, this.
  destruct (received_statistics_ self); [unfold ret|unfold log, assign];
    match goal with
    | |- exists _, receivedStats_loop _ ?s = Raise _ =>
        destruct (receivedStats_loop_not_numeric (vector received) s Hex)
          as (failure & Ef & _); now exists failure
    end.
Qed.

Lemma receivedStatsCallback_named_frame_witness :
  starts_name "agent_"
  /\ agent_frame_virtual "agent_" "_virtual" 2 = "agent_2_virtual"%string
  /\ exists f,
       receivedStatsCallback
         (mkArray [msg_estimated_statistics "agent_" "_virtual" 2
                     (mkStats 1 1 1 1 1)])
         example_agent = Raise f.
Proof.
  assert (H1 : starts_name "agent_").
  { simpl. repeat split; discriminate. }
  split; [exact H1|]. split; [reflexivity|].
  exact (proj2 (receivedStatsCallback_named_frame example_agent
                  (mkArray [msg_estimated_statistics "agent_" "_virtual" 2
                              (mkStats 1 1 1 1 1)])
                  "agent_" "_virtual" 2 (mkStats 1 1 1 1 1) H1
                  (or_introl eq_refl))).
Defined.

(** ** The consensus law on the buffer *)



(** ** Saturation, and the wrap of the heading error *)

(** X18. [saturation] is monotone and idempotent; and with crossed bounds
    (min above max) it answers max for every value. *)
Theorem saturation_edges (value other min max : R) :
  (value <= other -> saturation value min max <= saturation other min max)
  /\ saturation (saturation value min max) min max = saturation value min max
  /\ (max < min -> saturation value min max = max).
Proof.
  unfold saturation, Rmin, Rmax.
  repeat split; intros;
    repeat match goal with
           | |- context [Rle_dec ?a ?b] =>
               lazymatch a with
               | context [Rle_dec] => fail
               | _ => destruct (Rle_dec a b)
               end
           end; lra.
Qed.

Lemma trunc_spec r :
  exists n : Z, trunc r = IZR n
    /\ (0 <= r -> 0 <= r - IZR n < 1)
    /\ (r <= 0 -> -1 < r - IZR n <= 0).
Proof.
  unfold trunc. destruct (Rle_dec 0 r) as [Hpos|Hneg].
  - exists (Int_part r). destruct (base_Int_part r) as [H1 H2].
    split; [reflexivity|]. split; intros.
    + lra.
    + assert (r = 0) by lra. subst r.
      assert (Hz : (-1 < Int_part 0)%Z) by (apply lt_IZR; lra).
      assert (0 <= IZR (Int_part 0)) by (apply IZR_le; lia).
      lra.
  - exists (- Int_part (- r))%Z. destruct (base_Int_part (- r)) as [H1 H2].
    rewrite opp_IZR. split; [reflexivity|]. split; intros; lra.
Qed.

(** The remainder lies strictly within the divisor, on the side of the
    dividend, and differs from the dividend by a whole number of
    divisors. *)
Lemma fmod_spec a b :
  0 < b ->
  Rabs (fmod a b) < b
  /\ (0 <= a -> 0 <= fmod a b)
  /\ (a <= 0 -> fmod a b <= 0)
  /\ exists n : Z, fmod a b = a - IZR n * b.
Proof.
  intros Hb. unfold fmod.
  destruct (trunc_spec (a / b)) as (n & -> & Hpos & Hneg).
  assert (Ha : a = a / b * b) by (field; lra).
  assert (Hq : a - IZR n * b = (a / b - IZR n) * b) by (field; lra).
  assert (Hsign : 0 <= a -> 0 <= a / b).
  { intros H. apply Rmult_le_pos; [exact H|].
    apply Rlt_le, Rinv_0_lt_compat, Hb. }
  assert (Hsign' : a <= 0 -> a / b <= 0).
  { intros H. unfold Rdiv.
    replace (a * / b) with (- (- a * / b)) by ring.
    apply Ropp_le_cancel. rewrite Ropp_involutive, Ropp_0.
    apply Rmult_le_pos; [lra|]. apply Rlt_le, Rinv_0_lt_compat, Hb. }
  rewrite Hq.
  split; [|split; [|split]].
  - destruct (Rle_dec 0 a) as [H|H].
    + destruct (Hpos (Hsign H)) as [H1 H2].
      rewrite Rabs_pos_eq by nra. nra.
    + destruct (Hneg (Hsign' ltac:(lra))) as [H1 H2].
      rewrite Rabs_left1 by nra. nra.
  - intros H. destruct (Hpos (Hsign H)). nra.
  - intros H. destruct (Hneg (Hsign' H)). nra.
  - exists n. symmetry. exact Hq.
Qed.

(** X19. The heading error the steer command is computed from is the
    difference between the line-of-sight angle and the heading, less a
    whole number of times pi (not of turns): it lies strictly within
    (-pi, pi) and on the side of the difference. *)
Theorem guidance_heading_error (eulerAngles : Quaternion.t -> R * R * R)
    (self : AgentCore) :
  exists self' heading_error,
    guidance eulerAngles self = Ok (tt, self')
    /\ steer_command_sat_ self'
       = saturation (k_p_steer_ self * heading_error)
           (steer_min_ self) (steer_max_ self)
    /\ (exists n : Z,
          heading_error
          = los_angle_ self'
            - getTheta eulerAngles (Pose.orientation (pose_ self)) - IZR n * PI)
    /\ Rabs heading_error < PI
    /\ (getTheta eulerAngles (Pose.orientation (pose_ self)) <= los_angle_ self'
        -> 0 <= heading_error)
    /\ (los_angle_ self' <= getTheta eulerAngles (Pose.orientation (pose_ self))
        -> heading_error <= 0).
Proof.
  cbv [guidance bind this assign]. cbv beta.
  eexists. eexists. split; [reflexivity|]. simpl.
  split; [reflexivity|].
  match goal with
  | |- context [fmod ?a PI] =>
      destruct (fmod_spec a PI PI_RGT_0) as (Habs & Hpos & Hneg & n & Hn)
  end.
  split; [exists n; exact Hn|].
  split; [exact Habs|].
  split; intros H; [apply Hpos|apply Hneg]; lra.
Qed.

(** ** Control on an agent as constructed *)

(** X20. On an agent whose jacobian has one row per statistic, as the
    constructor leaves it and as every step keeps it, a control step stops
    on an Eigen assertion, whatever the dimensions and the gains. *)
Theorem control_stops_on_assertion (self : AgentCore) :
  constructed self -> control self = Raise eigen_assert.
Proof.
  intros [Hrows _]. unfold control, bind, this, lift.
  destruct (statsMsgToVector self (target_statistics_ self)) as [t|f] eqn:Et.
  - apply statsMsgToVector_size in Et as [Hn _].
    rewrite statsMsgToVector_five by assumption.
    destruct (Eigen.vsub t _) as [stats_error|f] eqn:Ev.
    + rewrite update_jacobian_raises; [reflexivity|]. left. lia.
    + unfold Eigen.vsub in Ev.
      destruct (Eigen.size t =? _)%nat; [discriminate|].
      now injection Ev as <-.
  - unfold statsMsgToVector, Eigen.comma5 in Et.
    destruct (number_of_stats_ self =? 5)%nat; [discriminate|].
    now injection Et as <-.
Qed.

Lemma control_stops_on_assertion_witness :
  constructed example_agent /\ control example_agent = Raise eigen_assert.
Proof.
  assert (H : constructed example_agent) by (split; reflexivity).
  split; [exact H|exact (control_stops_on_assertion example_agent H)].
Defined.
